(** * nix-mcp: the command runner and the tool dispatcher of [server.py]

    A shallow embedding of [run_nix_command] and [call_tool] from
    [src/nix_mcp/server.py], with the properties of the dispatch layer stated
    and proved over it.

    Conventions of the model.
    - A Python [str] is a [string]; a character is one code point below 256.
    - A Python function that touches the clock, the process table or the file
      system is a computation over an explicit [world]; a raised exception is
      the [Raise] outcome of that computation.
    - [json.loads] is a parameter of the development, [json.dumps] is left
      uninterpreted: a JSON reply is represented by the object it serializes.
    - The two functions are embedded twice. The first embedding is for the
      replies of the dispatcher: there the log can always be written and its
      path is the text it is built from. The second, [Posix], keeps
      [pathlib.Path] and the [OSError] of [open] and [write]; the properties
      of the runner and of its log are stated on it. The two agree whenever
      the log file is not refused ([posix_call_tool_agrees]). *)

From Stdlib Require Import ZArith Ascii String List DecimalString.
From stdpp Require Import gmap strings.

Local Open Scope Z_scope.

(** ** Python strings *)

Module PyStr.

Definition chars (s : string) : list ascii := list_ascii_of_string s.
Definition str (l : list ascii) : string := string_of_list_ascii l.

(** [str.isspace] on one character, for the code points below 256:
    TAB, LF, VT, FF, CR, FS, GS, RS, US, SPACE, NEL and NBSP. *)
Definition isspace (c : ascii) : bool :=
  match N_of_ascii c with
  | 9 | 10 | 11 | 12 | 13 | 28 | 29 | 30 | 31 | 32 | 133 | 160 => true
  | _ => false
  end%N.

Definition newline : ascii := "010"%char.

Fixpoint lstrip_chars (l : list ascii) : list ascii :=
  match l with
  | [] => []
  | c :: l' => if isspace c then lstrip_chars l' else l
  end.

Definition rstrip_chars (l : list ascii) : list ascii :=
  rev (lstrip_chars (rev l)).

(** [s.strip()]: the left index is advanced first, then the right one. *)
Definition strip_chars (l : list ascii) : list ascii :=
  rstrip_chars (lstrip_chars l).

(** [s.split(sep)] for a separator of one character: one more piece than
    there are separators, never the empty list. *)
Fixpoint split_chars (sep : ascii) (l : list ascii) : list (list ascii) :=
  match l with
  | [] => [[]]
  | c :: l' =>
      if Ascii.eqb c sep then [] :: split_chars sep l'
      else match split_chars sep l' with
           | h :: t => (c :: h) :: t
           | [] => [[c]]
           end
  end.

Definition strip (s : string) : string := str (strip_chars (chars s)).

Definition split (sep : ascii) (s : string) : list string :=
  map str (split_chars sep (chars s)).

(** [s.startswith(p)] *)
Definition startswith (s p : string) : bool := String.prefix p s.

(** [sep.join(l)] *)
Definition join (sep : string) (l : list string) : string :=
  String.concat sep l.

(** [l[-1]] on a list known to be non-empty. *)
Definition last_item (l : list string) : string := List.last l "".

(** Truth value of a string: non-empty. *)
Definition truthy (s : string) : bool :=
  match s with EmptyString => false | String _ _ => true end.

(** [str(n)] for an integer. *)
Definition of_Z (n : Z) : string := NilZero.string_of_int (Z.to_int n).

(** A line is blank when it holds nothing but white space. *)
Definition blank (s : string) : bool := forallb isspace (chars s).

End PyStr.

(** ** Python values, dictionaries and exceptions *)

(** The values that travel through a reply: what [json.loads] returns and what
    [json.dumps] accepts. A float is identified by its [repr]; a dictionary
    keeps its items in insertion order, with pairwise distinct keys. *)
#[warning="-register-all"]
Inductive value :=
| VNone
| VBool (b : bool)
| VInt (n : Z)
| VFloat (repr : string)
| VStr (s : string)
| VList (items : list value)
| VDict (items : list (string * value)).

Abbreviation dict := (list (string * value)).

(** [d[key] = v]: an existing key keeps its place, a new one goes last. *)
Fixpoint dict_set (key : string) (v : value) (d : dict) : dict :=
  match d with
  | [] => [(key, v)]
  | (k, v') :: d' =>
      if decide (k = key) then (k, v) :: d' else (k, v') :: dict_set key v d'
  end.

(** [d.get(key)] *)
Fixpoint dict_get (key : string) (d : dict) : option value :=
  match d with
  | [] => None
  | (k, v) :: d' => if decide (k = key) then Some v else dict_get key d'
  end.

(** [len(v)]; [None] where Python raises [TypeError]. *)
Definition py_len (v : value) : option nat :=
  match v with
  | VStr s => Some (String.length s)
  | VList items => Some (length items)
  | VDict items => Some (length items)
  | VNone | VBool _ | VInt _ | VFloat _ => None
  end.

Definition type_name (v : value) : string :=
  match v with
  | VNone => "NoneType"
  | VBool _ => "bool"
  | VInt _ => "int"
  | VFloat _ => "float"
  | VStr _ => "str"
  | VList _ => "list"
  | VDict _ => "dict"
  end.

(** The exceptions [call_tool] raises itself, on arguments of the types its
    schemas declare. Those of the system below it, [OSError] from the log
    first of all, are in [Posix.exn]. *)
Inductive exn :=
| KeyError (key : string)
| TypeError (message : string).

Inductive outcome (A : Type) :=
| Return (a : A)
| Raise (e : exn).
Arguments Return {A} a.
Arguments Raise {A} e.

(** ** The world: clock, processes and files *)

Record datetime := {
  year : N; month : N; day : N;
  hour : N; minute : N; second : N; microsecond : N
}.

(** What [subprocess.run(args, capture_output=True, text=True, timeout=300)]
    does: it returns a completed process, raises [TimeoutExpired], or raises
    another exception [e], kept as [str(e)]. *)
Inductive spawned :=
| Completed (returncode : Z) (stdout stderr : string)
| TimedOut
| Failed (message : string).

Record world := {
  w_clock : nat -> datetime;              (* the n-th reading of the clock *)
  w_ticks : nat;                          (* readings taken so far *)
  w_spawn : nat -> list string -> spawned; (* fate of the n-th subprocess *)
  w_argv : list (list string);            (* the processes run, oldest first *)
  w_fs : gmap string string               (* the files, by path *)
}.

Definition M (A : Type) : Type := world -> outcome A * world.

Definition ret {A} (a : A) : M A := fun w => (Return a, w).
Definition raise {A} (e : exn) : M A := fun w => (Raise e, w).
Definition bind {A B} (m : M A) (k : A -> M B) : M B :=
  fun w =>
    match m w with
    | (Return a, w') => k a w'
    | (Raise e, w') => (Raise e, w')
    end.

Notation "x <- m ;; k" := (bind m (fun x => k))
  (at level 100, m at next level, right associativity).
Notation "m ;;; k" := (bind m (fun _ => k))
  (at level 100, right associativity).

(** [datetime.now()] *)
Definition now : M datetime :=
  fun w =>
    (Return (w_clock w (w_ticks w)),
     {| w_clock := w_clock w; w_ticks := S (w_ticks w); w_spawn := w_spawn w;
        w_argv := w_argv w; w_fs := w_fs w |}).

(** [subprocess.run(args, ...)], its exceptions reified in [spawned]. *)
Definition subprocess_run (args : list string) : M spawned :=
  fun w =>
    (Return (w_spawn w (length (w_argv w)) args),
     {| w_clock := w_clock w; w_ticks := w_ticks w; w_spawn := w_spawn w;
        w_argv := w_argv w ++ [args]; w_fs := w_fs w |}).

Definition update_fs (f : gmap string string -> gmap string string) : M unit :=
  fun w =>
    (Return tt,
     {| w_clock := w_clock w; w_ticks := w_ticks w; w_spawn := w_spawn w;
        w_argv := w_argv w; w_fs := f (w_fs w) |}).

(** [open(path, "w")] when the system grants it: the file exists and is
    empty afterwards. [Posix.open_w] is the operation that can fail. *)
Definition open_w (path : string) : M unit :=
  update_fs (fun fs => <[path := ""]> fs).

(** [f.write(s)] on the file opened at [path], when the system grants it. *)
Definition f_write (path s : string) : M unit :=
  update_fs (fun fs => alter (fun c => c +:+ s) path fs).

(** ** [strftime] *)

Definition digit (n : N) : ascii := ascii_of_N (48 + n mod 10).

(** The last [width] decimal digits of [n], zero-padded. *)
Fixpoint zero_padded (width : nat) (n : N) : string :=
  match width with
  | O => ""
  | S k => zero_padded k (n / 10) +:+ String (digit n) ""
  end.

(** [dt.strftime("%Y%m%d-%H%M%S-%f")], for a year of four digits. *)
Definition strftime (dt : datetime) : string :=
  zero_padded 4 (year dt) +:+ zero_padded 2 (month dt) +:+ zero_padded 2 (day dt)
  +:+ "-" +:+ zero_padded 2 (hour dt) +:+ zero_padded 2 (minute dt)
  +:+ zero_padded 2 (second dt) +:+ "-" +:+ zero_padded 6 (microsecond dt).

(** ** The command runner *)

(** [run_nix_command(args, log_prefix)], with [capture_output] at its default
    [True] as at every call site. The three arms are the body of the [try]
    and its two [except] clauses. This is the function on a system that
    grants every [open] and [write] of the log, with the log path kept as
    the text it is built from: what [str(Path(...))] gives for a prefix
    without [/], as all prefixes of the dispatcher are
    ([log_file_path_plain]). [Posix.run_nix_command] is the function
    without these two provisos. *)
Definition run_nix_command (args : list string) (log_prefix : string)
  : M (bool * string * string) :=
  dt <- now ;;
  let timestamp := strftime dt in
  let log_file := "/tmp/nix-mcp-" +:+ log_prefix +:+ "-" +:+ timestamp +:+ ".log" in
  result <- subprocess_run args ;;
  match result with
  | Completed returncode stdout stderr =>
      open_w log_file ;;;
      f_write log_file ("Command: " +:+ PyStr.join " " args +:+ "
") ;;;
      f_write log_file ("Exit code: " +:+ PyStr.of_Z returncode +:+ "
") ;;;
      f_write log_file ("
=== STDOUT ===
" +:+ stdout +:+ "
") ;;;
      f_write log_file ("
=== STDERR ===
" +:+ stderr +:+ "
") ;;;
      let success := returncode =? 0 in
      ret (success, stdout, log_file)
  | TimedOut =>
      open_w log_file ;;;
      f_write log_file ("Command: " +:+ PyStr.join " " args +:+ "
") ;;;
      f_write log_file "Error: Command timed out after 300 seconds
" ;;;
      ret (false, "", log_file)
  | Failed e =>
      open_w log_file ;;;
      f_write log_file ("Command: " +:+ PyStr.join " " args +:+ "
") ;;;
      f_write log_file ("Error: " +:+ e +:+ "
") ;;;
      ret (false, "", log_file)
  end.

(** ** The tool dispatcher *)

(** The argument mapping of a call. Each key of the input schemas is present
    or absent; a present key holds a value of the type its schema declares. *)
Record tool_arguments := {
  flake_ref : option string;
  extra_args : option (list string);
  raw : option bool;
  json : option bool;
  query : option string
}.

(** [arguments[key]] *)
Definition subscript {A} (key : string) (item : option A) : M A :=
  match item with
  | Some v => ret v
  | None => raise (KeyError key)
  end.

(** [arguments.get(key, default)] *)
Definition get {A} (item : option A) (default : A) : A :=
  match item with
  | Some v => v
  | None => default
  end.

(** The text of a reply: a string, or [json.dumps(obj, indent=indent)]. *)
Inductive text_value :=
| Plain (s : string)
| JsonDumps (obj : dict) (indent : nat).

Record TextContent := { type : string; text : text_value }.

(** ** The catalog *)

(** One property of an input schema: its name, its JSON type and its default. *)
Record property := {
  prop_name : string;
  prop_type : string;
  prop_default : option value
}.

(** A tool descriptor: the name and the input schema, as the property list
    and the list of required keys. The descriptions are left out. *)
Record Tool := {
  tool_name : string;
  tool_properties : list property;
  tool_required : list string
}.

Definition list_tools : list Tool :=
  [ {| tool_name := "nix_build";
       tool_properties :=
         [ {| prop_name := "flake_ref"; prop_type := "string"; prop_default := None |};
           {| prop_name := "extra_args"; prop_type := "array";
              prop_default := Some (VList []) |} ];
       tool_required := ["flake_ref"] |};
    {| tool_name := "nix_eval";
       tool_properties :=
         [ {| prop_name := "flake_ref"; prop_type := "string"; prop_default := None |};
           {| prop_name := "raw"; prop_type := "boolean";
              prop_default := Some (VBool false) |};
           {| prop_name := "json"; prop_type := "boolean";
              prop_default := Some (VBool false) |} ];
       tool_required := ["flake_ref"] |};
    {| tool_name := "nix_flake_show";
       tool_properties :=
         [ {| prop_name := "flake_ref"; prop_type := "string";
              prop_default := Some (VStr ".") |} ];
       tool_required := [] |};
    {| tool_name := "nix_flake_check";
       tool_properties :=
         [ {| prop_name := "flake_ref"; prop_type := "string";
              prop_default := Some (VStr ".") |} ];
       tool_required := [] |};
    {| tool_name := "nix_search";
       tool_properties :=
         [ {| prop_name := "query"; prop_type := "string"; prop_default := None |};
           {| prop_name := "flake_ref"; prop_type := "string";
              prop_default := Some (VStr "nixpkgs") |} ];
       tool_required := ["query"] |} ].

Definition tool_names : list string := map tool_name list_tools.

Definition find_tool (name : string) : option Tool :=
  find (fun t => bool_decide (tool_name t = name)) list_tools.

Definition required_keys (name : string) : list string :=
  match find_tool name with
  | Some t => tool_required t
  | None => []
  end.

Definition declared_default (name key : string) : option value :=
  match find_tool name with
  | Some t =>
      match find (fun p => bool_decide (prop_name p = key)) (tool_properties t) with
      | Some p => prop_default p
      | None => None
      end
  | None => None
  end.

Definition is_some {A} (o : option A) : bool :=
  match o with Some _ => true | None => false end.

(** [key in arguments] *)
Definition present (key : string) (a : tool_arguments) : bool :=
  if decide (key = "flake_ref") then is_some (flake_ref a)
  else if decide (key = "extra_args") then is_some (extra_args a)
  else if decide (key = "raw") then is_some (raw a)
  else if decide (key = "json") then is_some (json a)
  else if decide (key = "query") then is_some (query a)
  else false.

Definition supplies_required (name : string) (a : tool_arguments) : bool :=
  forallb (fun key => present key a) (required_keys name).

Definition with_flake_ref (v : string) (a : tool_arguments) : tool_arguments :=
  {| flake_ref := Some v; extra_args := extra_args a; raw := raw a; json := json a;
     query := query a |}.
Definition with_extra_args (v : list string) (a : tool_arguments) : tool_arguments :=
  {| flake_ref := flake_ref a; extra_args := Some v; raw := raw a; json := json a;
     query := query a |}.
Definition with_raw (v : bool) (a : tool_arguments) : tool_arguments :=
  {| flake_ref := flake_ref a; extra_args := extra_args a; raw := Some v; json := json a;
     query := query a |}.
Definition with_json (v : bool) (a : tool_arguments) : tool_arguments :=
  {| flake_ref := flake_ref a; extra_args := extra_args a; raw := raw a; json := Some v;
     query := query a |}.

Section Dispatcher.

(** [json.loads]; [None] where it raises [JSONDecodeError]. *)
Variable json_loads : string -> option value.

Definition call_tool (name : string) (arguments : tool_arguments)
  : M (list TextContent) :=
  if decide (name = "nix_build") then
    flake_ref <- subscript "flake_ref" (flake_ref arguments) ;;
    let extra_args := get (extra_args arguments) [] in
    let args :=
      ["nix"; "build"; flake_ref; "--show-trace"; "--print-out-paths"] ++ extra_args in
    r <- run_nix_command args "build" ;;
    let '(success, stdout, log_file) := r in
    let result := [("success", VBool success); ("log_file", VStr log_file)] in
    let result :=
      if success && PyStr.truthy (PyStr.strip stdout) then
        let lines := PyStr.split PyStr.newline (PyStr.strip stdout) in
        let store_path := PyStr.strip (PyStr.last_item lines) in
        if PyStr.startswith store_path "/nix/store/"
        then dict_set "store_path" (VStr store_path) result
        else result
      else result in
    ret [{| type := "text"; text := JsonDumps result 2 |}]
  else if decide (name = "nix_eval") then
    flake_ref <- subscript "flake_ref" (flake_ref arguments) ;;
    let raw := get (raw arguments) false in
    let as_json := get (json arguments) false in
    let args := ["nix"; "eval"; flake_ref; "--show-trace"] in
    let args := if raw then args ++ ["--raw"] else args in
    let args := if as_json then args ++ ["--json"] else args in
    r <- run_nix_command args "eval" ;;
    let '(success, stdout, log_file) := r in
    let result := [("success", VBool success); ("log_file", VStr log_file)] in
    let result :=
      if success then dict_set "result" (VStr (PyStr.strip stdout)) result
      else result in
    ret [{| type := "text"; text := JsonDumps result 2 |}]
  else if decide (name = "nix_flake_show") then
    let flake_ref := get (flake_ref arguments) "." in
    let args := ["nix"; "flake"; "show"; flake_ref; "--json"] in
    r <- run_nix_command args "flake-show" ;;
    let '(success, stdout, log_file) := r in
    let result := [("success", VBool success); ("log_file", VStr log_file)] in
    let result :=
      if success then
        match json_loads stdout with
        | Some outputs => dict_set "outputs" outputs result
        | None => dict_set "outputs" (VStr (PyStr.strip stdout)) result
        end
      else result in
    ret [{| type := "text"; text := JsonDumps result 2 |}]
  else if decide (name = "nix_flake_check") then
    let flake_ref := get (flake_ref arguments) "." in
    let args := ["nix"; "flake"; "check"; flake_ref; "--show-trace"] in
    r <- run_nix_command args "flake-check" ;;
    let '(success, stdout, log_file) := r in
    let result := [("success", VBool success); ("log_file", VStr log_file)] in
    ret [{| type := "text"; text := JsonDumps result 2 |}]
  else if decide (name = "nix_search") then
    query <- subscript "query" (query arguments) ;;
    let flake_ref := get (flake_ref arguments) "nixpkgs" in
    let args := ["nix"; "search"; flake_ref; query; "--json"] in
    r <- run_nix_command args "search" ;;
    let '(success, stdout, log_file) := r in
    let result := [("success", VBool success); ("log_file", VStr log_file)] in
    result <-
      (if success then
         match json_loads stdout with
         | Some search_results =>
             let result := dict_set "results" search_results result in
             match py_len search_results with
             | Some n => ret (dict_set "count" (VInt (Z.of_nat n)) result)
             | None =>
                 raise (TypeError ("object of type '" +:+ type_name search_results
                                   +:+ "' has no len()"))
             end
         | None => ret (dict_set "results" (VStr (PyStr.strip stdout)) result)
         end
       else ret result) ;;
    ret [{| type := "text"; text := JsonDumps result 2 |}]
  else
    ret [{| type := "text"; text := Plain ("Unknown tool: " +:+ name) |}].

End Dispatcher.

(** * The vocabulary of the statements *)

(** ** One run of the command, seen from outside *)

(** The text [f"/tmp/nix-mcp-{log_prefix}-{timestamp}.log"] at clock reading
    [dt], from which [run_nix_command] makes the path of its log;
    [log_file_path] is that path. *)
Definition log_path (log_prefix : string) (dt : datetime) : string :=
  "/tmp/nix-mcp-" +:+ log_prefix +:+ "-" +:+ strftime dt +:+ ".log".

(** What follows the command line in the transcript. *)
Definition transcript_tail (p : spawned) : string :=
  match p with
  | Completed returncode stdout stderr =>
      "Exit code: " +:+ PyStr.of_Z returncode +:+ "

=== STDOUT ===
" +:+ stdout +:+ "

=== STDERR ===
" +:+ stderr +:+ "
"
  | TimedOut => "Error: Command timed out after 300 seconds
"
  | Failed e => "Error: " +:+ e +:+ "
"
  end.

Definition transcript (args : list string) (p : spawned) : string :=
  "Command: " +:+ PyStr.join " " args +:+ "
" +:+ transcript_tail p.

(** The fate of the subprocess started next in [w]. *)
Definition next_process (w : world) (args : list string) : spawned :=
  w_spawn w (length (w_argv w)) args.

(** The log path of the run started next in [w]. *)
Definition next_log (w : world) (log_prefix : string) : string :=
  log_path log_prefix (w_clock w (w_ticks w)).

Definition succeeded (p : spawned) : bool :=
  match p with
  | Completed returncode _ _ => returncode =? 0
  | TimedOut | Failed _ => false
  end.

Definition captured (p : spawned) : string :=
  match p with
  | Completed _ stdout _ => stdout
  | TimedOut | Failed _ => ""
  end.

(** The world one run later: one clock reading, one process, one file. *)
Definition after_run (args : list string) (log_prefix : string) (w : world) : world :=
  {| w_clock := w_clock w;
     w_ticks := S (w_ticks w);
     w_spawn := w_spawn w;
     w_argv := w_argv w ++ [args];
     w_fs := <[next_log w log_prefix := transcript args (next_process w args)]> (w_fs w) |}.

(** ** Replies *)

(** The reply that carries [json.dumps(result, indent=2)]. *)
Definition reply (result : dict) : list TextContent :=
  [{| type := "text"; text := JsonDumps result 2 |}].

Definition base_fields (success : bool) (log_file : string) : dict :=
  [("success", VBool success); ("log_file", VStr log_file)].

Definition tool_specific_fields : list string :=
  ["store_path"; "result"; "outputs"; "results"; "count"].


(** ** Lines of a text *)

Definition lines (s : string) : list string := PyStr.split PyStr.newline s.

(** The last line that holds something else than white space, if any. *)
Definition last_nonblank_line (s : string) : option string :=
  find (fun l => negb (PyStr.blank l)) (rev (lines s)).


(** ** Readings taken from the specification *)



(** A call writes exactly one file that was not there before. *)
Definition creates_one_file (before after : world) : Prop :=
  exists path content,
    w_fs before !! path = None /\ w_fs after = <[path := content]> (w_fs before).

(** ** A concrete world for closed examples *)

Definition sample_instant : datetime :=
  {| year := 2024; month := 3; day := 7; hour := 9; minute := 5; second := 1;
     microsecond := 42 |}.

(** A fresh world in which every subprocess ends as [p]. *)
Definition sample_world (p : spawned) : world :=
  {| w_clock := fun _ => sample_instant; w_ticks := 0%nat;
     w_spawn := fun _ _ => p; w_argv := []; w_fs := ∅ |}.

(** A decoder for closed examples: it agrees with [json.loads] on the five
    JSON texts it lists and on texts that do not begin a JSON value; the
    theorems hold for every decoder and never refer to this one. *)
Definition sample_loads (s : string) : option value :=
  if decide (s = "{}") then Some (VDict [])
  else if decide (s = "[]") then Some (VList [])
  else if decide (s = "[1, 2, 3]") then Some (VList [VInt 1; VInt 2; VInt 3])
  else if decide (s = "42") then Some (VInt 42)
  else if decide (s = "null") then Some VNone
  else None.

Definition no_arguments : tool_arguments :=
  {| flake_ref := None; extra_args := None; raw := None; json := None; query := None |}.

Definition build_default : tool_arguments :=
  {| flake_ref := Some ".#default"; extra_args := None; raw := None; json := None;
     query := None |}.

Definition eval_version : tool_arguments :=
  {| flake_ref := Some "nixpkgs#hello.version"; extra_args := None; raw := Some true;
     json := None; query := None |}.

Definition search_hello : tool_arguments :=
  {| flake_ref := None; extra_args := None; raw := None; json := None;
     query := Some "hello" |}.

(** ** Shapes of texts and instants *)

(** A text without white space at either end. *)
Definition trimmed (s : string) : bool :=
  match PyStr.chars s with
  | [] => true
  | c :: l => negb (PyStr.isspace c) && negb (PyStr.isspace (List.last l c))
  end.

(** A text without a line feed. *)
Definition single_line (s : string) : bool :=
  forallb (fun c => negb (Ascii.eqb c PyStr.newline)) (PyStr.chars s).

(** The instants whose year takes four digits, every other field in the
    range a [datetime] object keeps it in. *)
Definition valid_datetime (dt : datetime) : Prop :=
  (1000 <= year dt <= 9999)%N /\ (1 <= month dt <= 12)%N /\ (1 <= day dt <= 31)%N /\
  (hour dt < 24)%N /\ (minute dt < 60)%N /\ (second dt < 60)%N /\
  (microsecond dt < 1000000)%N.




Definition build_with_extra : tool_arguments :=
  {| flake_ref := Some ".#default"; extra_args := Some ["--impure"; "-L"]; raw := None;
     json := None; query := None |}.

(** * The runner and the dispatcher on a system that can refuse the log

    The definitions above take the log for granted: every [open] and every
    [write] goes through, and the path is the text it is built from. Here
    the same two functions are embedded with what the first layer leaves
    out: [Path] normalises its text, each operation on the log file can
    raise [OSError], and the [try] of [run_nix_command] with its two
    [except] clauses is kept as it is written. *)

(** The effects of the first layer on the world alone. *)
Definition clock_read (w : world) : world := snd (now w).
Definition process_started (args : list string) (w : world) : world :=
  snd (subprocess_run args w).
Definition files_changed (effect : gmap string string -> gmap string string)
  (w : world) : world := snd (update_fs effect w).

Module Posix.

(** The exceptions of this layer: those of the dispatcher, those of
    [subprocess.run] and [OSError] from the log file. *)
Inductive exn :=
| KeyError (key : string)
| TypeError (message : string)
| TimeoutExpired
| LaunchError (message : string)
| OSError (message : string).

Inductive outcome (A : Type) :=
| Return (a : A)
| Raise (e : exn).
Arguments Return {A} a.
Arguments Raise {A} e.

(** The operations on a file: [open(path, "w")], [f.write(text)] and the
    [f.close()] at the end of a [with]. *)
Inductive io_op :=
| Open (path : string)
| Write (path text : string)
| Close (path : string).

Definition op_path (op : io_op) : string :=
  match op with
  | Open path => path
  | Write path _ => path
  | Close path => path
  end.

(** A world together with the fate of each file operation: [h_io h n op] is
    [None] when the n-th operation, being [op], goes through, and [Some m]
    when it raises [OSError] with [str(e) = m]. *)
Record host := {
  h_world : world;
  h_io : nat -> io_op -> option string;
  h_ops : nat
}.

Definition IO (A : Type) : Type := host -> outcome A * host.

Definition ret {A} (a : A) : IO A := fun h => (Return a, h).
Definition raise {A} (e : exn) : IO A := fun h => (Raise e, h).
Definition bind {A B} (m : IO A) (k : A -> IO B) : IO B :=
  fun h =>
    match m h with
    | (Return a, h') => k a h'
    | (Raise e, h') => (Raise e, h')
    end.

(** [try: body except ... as e: handler e] *)
Definition try_except {A} (body : IO A) (handler : exn -> IO A) : IO A :=
  fun h =>
    match body h with
    | (Return a, h') => (Return a, h')
    | (Raise e, h') => handler e h'
    end.

#[warning="-notation-overridden"]
Notation "x <- m ;; k" := (bind m (fun x => k))
  (at level 100, m at next level, right associativity).
#[warning="-notation-overridden"]
Notation "m ;;; k" := (bind m (fun _ => k))
  (at level 100, right associativity).

Definition on_world (h : host) (w : world) : host :=
  {| h_world := w; h_io := h_io h; h_ops := h_ops h |}.

(** [datetime.now()] *)
Definition now : IO datetime :=
  fun h =>
    (Return (w_clock (h_world h) (w_ticks (h_world h))),
     on_world h (clock_read (h_world h))).

Record CompletedProcess := {
  returncode : Z;
  stdout : string;
  stderr : string
}.

(** [subprocess.run(args, capture_output=True, text=True, timeout=300)] *)
Definition subprocess_run (args : list string) : IO CompletedProcess :=
  fun h =>
    let h' := on_world h (process_started args (h_world h)) in
    match w_spawn (h_world h) (length (w_argv (h_world h))) args with
    | Completed rc out err =>
        (Return {| returncode := rc; stdout := out; stderr := err |}, h')
    | TimedOut => (Raise TimeoutExpired, h')
    | Failed message => (Raise (LaunchError message), h')
    end.

(** One operation on a file: it raises, or it has its effect on the files. *)
Definition file_op (op : io_op) (effect : gmap string string -> gmap string string)
  : IO unit :=
  fun h =>
    match h_io h (h_ops h) op with
    | Some message =>
        (Raise (OSError message),
         {| h_world := h_world h; h_io := h_io h; h_ops := S (h_ops h) |})
    | None =>
        (Return tt,
         {| h_world := files_changed effect (h_world h); h_io := h_io h;
            h_ops := S (h_ops h) |})
    end.

(** [open(path, "w")] *)
Definition open_w (path : string) : IO unit :=
  file_op (Open path) (fun fs => <[path := ""]> fs).

(** [f.write(s)] on the file opened at [path]. *)
Definition f_write (path s : string) : IO unit :=
  file_op (Write path s) (fun fs => alter (fun c => c +:+ s) path fs).

(** [f.close()] *)
Definition f_close (path : string) : IO unit :=
  file_op (Close path) (fun fs => fs).

(** [with open(path, "w") as f: body]: the file is closed when the body
    ends, also when it ends by an exception; an exception of [close] then
    takes the place of that of the body. *)
Definition with_open {A} (path : string) (body : IO A) : IO A :=
  open_w path ;;;
  fun h =>
    match body h with
    | (Return a, h') => (f_close path ;;; ret a) h'
    | (Raise e, h') =>
        match f_close path h' with
        | (Return _, h'') => (Raise e, h'')
        | (Raise e', h'') => (Raise e', h'')
        end
    end.

Definition slash : ascii := "/"%char.

Fixpoint leading_slashes (l : list ascii) : nat :=
  match l with
  | c :: l' => if Ascii.eqb c slash then S (leading_slashes l') else O
  | [] => O
  end.

(** [str(Path(s))]: the root is [/] (or [//] for exactly two leading
    slashes), the empty components and the components [.] are dropped, and
    the rest is joined by [/]; a relative path without components is [.]. *)
Definition Path (s : string) : string :=
  let l := PyStr.chars s in
  let n := leading_slashes l in
  let root := match n with O => "" | 2%nat => "//" | _ => "/" end in
  let parts :=
    filter (fun part => negb (String.eqb part "") && negb (String.eqb part "."))
      (PyStr.split slash (PyStr.str (skipn n l))) in
  match n, parts with
  | O, [] => "."
  | _, _ => root +:+ PyStr.join "/" parts
  end.

(** [str(e)] for the exceptions that reach [except Exception as e];
    [None] for the one that [except subprocess.TimeoutExpired] takes. *)
Definition caught_as_exception (e : exn) : option string :=
  match e with
  | TimeoutExpired => None
  | KeyError key => Some ("'" +:+ key +:+ "'")
  | TypeError message | LaunchError message | OSError message => Some message
  end.

(** [run_nix_command(args, log_prefix)], with [capture_output] at its default
    [True] as at every call site. *)
Definition run_nix_command (args : list string) (log_prefix : string)
  : IO (bool * string * string) :=
  dt <- now ;;
  let timestamp := strftime dt in
  let log_file := Path ("/tmp/nix-mcp-" +:+ log_prefix +:+ "-" +:+ timestamp +:+ ".log") in
  try_except
    (result <- subprocess_run args ;;
     with_open log_file
       (f_write log_file ("Command: " +:+ PyStr.join " " args +:+ "
") ;;;
        f_write log_file ("Exit code: " +:+ PyStr.of_Z (returncode result) +:+ "
") ;;;
        f_write log_file ("
=== STDOUT ===
" +:+ stdout result +:+ "
") ;;;
        f_write log_file ("
=== STDERR ===
" +:+ stderr result +:+ "
")) ;;;
     let success := returncode result =? 0 in
     ret (success, stdout result, log_file))
    (fun e =>
       match caught_as_exception e with
       | None =>
           with_open log_file
             (f_write log_file ("Command: " +:+ PyStr.join " " args +:+ "
") ;;;
              f_write log_file "Error: Command timed out after 300 seconds
") ;;;
           ret (false, "", log_file)
       | Some str_e =>
           with_open log_file
             (f_write log_file ("Command: " +:+ PyStr.join " " args +:+ "
") ;;;
              f_write log_file ("Error: " +:+ str_e +:+ "
")) ;;;
           ret (false, "", log_file)
       end).

(** [arguments[key]] *)
Definition subscript {A} (key : string) (item : option A) : IO A :=
  match item with
  | Some v => ret v
  | None => raise (KeyError key)
  end.

Section Dispatcher.

(** [json.loads]; [None] where it raises [JSONDecodeError]. *)
Variable json_loads : string -> option value.

Definition call_tool (name : string) (arguments : tool_arguments)
  : IO (list TextContent) :=
  if decide (name = "nix_build") then
    flake_ref <- subscript "flake_ref" (flake_ref arguments) ;;
    let extra_args := get (extra_args arguments) [] in
    let args :=
      ["nix"; "build"; flake_ref; "--show-trace"; "--print-out-paths"] ++ extra_args in
    r <- run_nix_command args "build" ;;
    let '(success, stdout, log_file) := r in
    let result := [("success", VBool success); ("log_file", VStr log_file)] in
    let result :=
      if success && PyStr.truthy (PyStr.strip stdout) then
        let lines := PyStr.split PyStr.newline (PyStr.strip stdout) in
        let store_path := PyStr.strip (PyStr.last_item lines) in
        if PyStr.startswith store_path "/nix/store/"
        then dict_set "store_path" (VStr store_path) result
        else result
      else result in
    ret [{| type := "text"; text := JsonDumps result 2 |}]
  else if decide (name = "nix_eval") then
    flake_ref <- subscript "flake_ref" (flake_ref arguments) ;;
    let raw := get (raw arguments) false in
    let as_json := get (json arguments) false in
    let args := ["nix"; "eval"; flake_ref; "--show-trace"] in
    let args := if raw then args ++ ["--raw"] else args in
    let args := if as_json then args ++ ["--json"] else args in
    r <- run_nix_command args "eval" ;;
    let '(success, stdout, log_file) := r in
    let result := [("success", VBool success); ("log_file", VStr log_file)] in
    let result :=
      if success then dict_set "result" (VStr (PyStr.strip stdout)) result
      else result in
    ret [{| type := "text"; text := JsonDumps result 2 |}]
  else if decide (name = "nix_flake_show") then
    let flake_ref := get (flake_ref arguments) "." in
    let args := ["nix"; "flake"; "show"; flake_ref; "--json"] in
    r <- run_nix_command args "flake-show" ;;
    let '(success, stdout, log_file) := r in
    let result := [("success", VBool success); ("log_file", VStr log_file)] in
    let result :=
      if success then
        match json_loads stdout with
        | Some outputs => dict_set "outputs" outputs result
        | None => dict_set "outputs" (VStr (PyStr.strip stdout)) result
        end
      else result in
    ret [{| type := "text"; text := JsonDumps result 2 |}]
  else if decide (name = "nix_flake_check") then
    let flake_ref := get (flake_ref arguments) "." in
    let args := ["nix"; "flake"; "check"; flake_ref; "--show-trace"] in
    r <- run_nix_command args "flake-check" ;;
    let '(success, stdout, log_file) := r in
    let result := [("success", VBool success); ("log_file", VStr log_file)] in
    ret [{| type := "text"; text := JsonDumps result 2 |}]
  else if decide (name = "nix_search") then
    query <- subscript "query" (query arguments) ;;
    let flake_ref := get (flake_ref arguments) "nixpkgs" in
    let args := ["nix"; "search"; flake_ref; query; "--json"] in
    r <- run_nix_command args "search" ;;
    let '(success, stdout, log_file) := r in
    let result := [("success", VBool success); ("log_file", VStr log_file)] in
    result <-
      (if success then
         match json_loads stdout with
         | Some search_results =>
             let result := dict_set "results" search_results result in
             match py_len search_results with
             | Some n => ret (dict_set "count" (VInt (Z.of_nat n)) result)
             | None =>
                 raise (TypeError ("object of type '" +:+ type_name search_results
                                   +:+ "' has no len()"))
             end
         | None => ret (dict_set "results" (VStr (PyStr.strip stdout)) result)
         end
       else ret result) ;;
    ret [{| type := "text"; text := JsonDumps result 2 |}]
  else
    ret [{| type := "text"; text := Plain ("Unknown tool: " +:+ name) |}].

End Dispatcher.

End Posix.

(** ** The vocabulary of the statements on that system *)

(** The log path as [run_nix_command] returns it. *)
Definition log_file_path (log_prefix : string) (dt : datetime) : string :=
  Posix.Path (log_path log_prefix dt).

(** A text without [/]. *)
Definition no_slash (s : string) : bool :=
  forallb (fun c => negb (Ascii.eqb c Posix.slash)) (PyStr.chars s).

(** Every operation on the file at [path] goes through. *)
Definition log_writable (h : Posix.host) (path : string) : Prop :=
  forall n op, Posix.op_path op = path -> Posix.h_io h n op = None.

(** The log prefix each tool passes to [run_nix_command]. *)
Definition tool_log_prefix (name : string) : string :=
  if decide (name = "nix_build") then "build"
  else if decide (name = "nix_eval") then "eval"
  else if decide (name = "nix_flake_show") then "flake-show"
  else if decide (name = "nix_flake_check") then "flake-check"
  else "search".

(** The outcomes of the first layer, read in this one. *)
Definition lift_outcome {A} (o : outcome A) : Posix.outcome A :=
  match o with
  | Return a => Posix.Return a
  | Raise (KeyError key) => Posix.Raise (Posix.KeyError key)
  | Raise (TypeError message) => Posix.Raise (Posix.TypeError message)
  end.

(** The directory of a path: what comes before its last [/]. *)
Definition dirname (path : string) : string :=
  PyStr.join "/" (removelast (PyStr.split Posix.slash path)).

(** A system on which nothing is refused. *)
Definition io_ok (n : nat) (op : Posix.io_op) : option string := None.

(** A system with [/tmp] and no directory below it: a file can be opened
    only directly in [/tmp]. *)
Definition io_flat_tmp (n : nat) (op : Posix.io_op) : option string :=
  match op with
  | Posix.Open path =>
      if String.eqb (dirname path) "/tmp" then None
      else Some ("[Errno 2] No such file or directory: '" +:+ path +:+ "'")
  | Posix.Write _ _ | Posix.Close _ => None
  end.

Definition sample_host (io : nat -> Posix.io_op -> option string) (p : spawned)
  : Posix.host :=
  {| Posix.h_world := sample_world p; Posix.h_io := io; Posix.h_ops := 0%nat |}.


(** A system whose [/tmp] is mounted read-only. *)
Definition io_read_only (n : nat) (op : Posix.io_op) : option string :=
  Some ("[Errno 30] Read-only file system: '" +:+ Posix.op_path op +:+ "'").

(** * Properties *)

(** ** The string functions on examples *)

Example strip_example : PyStr.strip "  /nix/store/abc
" = "/nix/store/abc".
Proof. reflexivity. Qed.

Example split_example :
  PyStr.split PyStr.newline "a
b
" = ["a"; "b"; ""].
Proof. reflexivity. Qed.

Example of_Z_example :
  (PyStr.of_Z 0, PyStr.of_Z 127, PyStr.of_Z (-9)) = ("0", "127", "-9").
Proof. reflexivity. Qed.

Example join_example : PyStr.join " " ["nix"; "build"; ".#x"] = "nix build .#x".
Proof. reflexivity. Qed.

Example strftime_example : strftime sample_instant = "20240307-090501-000042".
Proof. reflexivity. Qed.

Example last_nonblank_line_example :
  last_nonblank_line "warning: dirty tree
  /nix/store/abc  

" = Some "  /nix/store/abc  ".
Proof. reflexivity. Qed.

(** ** Stripping and splitting *)

Module PyStrFacts.
Import PyStr.


Lemma forallb_rev {A} (f : A -> bool) (l : list A) :
  forallb f (rev l) = forallb f l.
Proof.
  induction l as [|a l IH]; [reflexivity|].
  cbn [rev forallb]. rewrite forallb_app, IH. cbn. rewrite andb_true_r. apply andb_comm.
Qed.




Lemma chars_str (l : list ascii) : chars (str l) = l.
Proof. apply list_ascii_of_string_of_list_ascii. Qed.

Lemma str_chars (s : string) : str (chars s) = s.
Proof. apply string_of_list_ascii_of_string. Qed.


Lemma lstrip_blank (ws r : list ascii) :
  forallb isspace ws = true -> lstrip_chars (ws ++ r) = lstrip_chars r.
Proof.
  induction ws as [|a ws IH]; cbn [forallb app lstrip_chars]; [reflexivity|].
  intros [Ha Hws]%andb_true_iff. rewrite Ha. auto.
Qed.

Lemma lstrip_keep (x : list ascii) (c : ascii) (y : list ascii) :
  isspace c = false -> lstrip_chars (x ++ c :: y) = lstrip_chars x ++ c :: y.
Proof.
  intros Hc. induction x as [|a x IH]; cbn [app lstrip_chars].
  - now rewrite Hc.
  - destruct (isspace a); [exact IH | reflexivity].
Qed.

Lemma rstrip_keep (z : list ascii) (c : ascii) (post : list ascii) :
  isspace c = false -> forallb isspace post = true ->
  rstrip_chars (z ++ c :: post) = z ++ [c].
Proof.
  intros Hc Hpost. unfold rstrip_chars.
  rewrite rev_app_distr. cbn [rev]. rewrite <- !app_assoc.
  rewrite lstrip_blank by now rewrite forallb_rev.
  cbn [app lstrip_chars]. rewrite Hc. cbn [rev]. now rewrite rev_involutive.
Qed.

(** Stripping keeps everything from the first to the last character that is
    not white space. *)
Lemma strip_keep (x : list ascii) (c : ascii) (post : list ascii) :
  isspace c = false -> forallb isspace post = true ->
  strip_chars (x ++ c :: post) = lstrip_chars x ++ [c].
Proof.
  intros Hc Hpost. unfold strip_chars.
  rewrite lstrip_keep by assumption. now apply rstrip_keep.
Qed.

Lemma strip_blank (t : list ascii) :
  forallb isspace t = true -> strip_chars t = [].
Proof.
  intros Ht. unfold strip_chars. rewrite <- (app_nil_r t).
  rewrite lstrip_blank by assumption. reflexivity.
Qed.

(** A text is blank, or it has a last character that is not white space. *)
Lemma last_nonspace (t : list ascii) :
  forallb isspace t = true \/
  exists u c post, t = u ++ c :: post /\ isspace c = false /\ forallb isspace post = true.
Proof.
  induction t as [|a t [Hb|(u & c & post & -> & Hc & Hp)]].
  - now left.
  - destruct (isspace a) eqn:Ha.
    + left. cbn. now rewrite Ha.
    + right. now exists [], a, t.
  - right. now exists (a :: u), c, post.
Qed.

Lemma split_nonempty (sep : ascii) (l : list ascii) : split_chars sep l <> [].
Proof.
  destruct l as [|a l]; cbn; [discriminate|].
  destruct (Ascii.eqb a sep); [discriminate|].
  destruct (split_chars sep l); discriminate.
Qed.

(** Splitting a concatenation: the last piece of the left part and the
    first piece of the right part are glued together. *)
Lemma split_app (sep : ascii) (x y : list ascii) :
  split_chars sep (x ++ y) =
  removelast (split_chars sep x)
  ++ (List.last (split_chars sep x) [] ++ hd [] (split_chars sep y))
     :: tl (split_chars sep y).
Proof.
  induction x as [|a x IH].
  - cbn. pose proof (split_nonempty sep y). now destruct (split_chars sep y).
  - cbn [app split_chars]. rewrite IH. clear IH.
    pose proof (split_nonempty sep x) as Hx.
    destruct (split_chars sep x) as [|h [|h2 t]]; [contradiction|..];
      destruct (Ascii.eqb a sep); reflexivity.
Qed.



Lemma last_item_map (pieces : list (list ascii)) :
  last_item (map str pieces) = str (List.last pieces []).
Proof.
  unfold last_item. induction pieces as [|p [|q pieces] IH]; [reflexivity..|].
  exact IH.
Qed.





End PyStrFacts.

(** ** The command runner *)

Lemma append_assoc (a b c : string) : (a +:+ b) +:+ c = a +:+ (b +:+ c).
Proof.
  induction a as [|x a IH]; [reflexivity|].
  change (String x ((a +:+ b) +:+ c) = String x (a +:+ (b +:+ c))).
  now rewrite IH.
Qed.

Lemma append_nil_l (a : string) : "" +:+ a = a.
Proof. reflexivity. Qed.

Lemma length_append (a b : string) :
  String.length (a +:+ b) = (String.length a + String.length b)%nat.
Proof.
  induction a as [|x a IH]; [reflexivity|].
  change (S (String.length (a +:+ b)) = S (String.length a + String.length b)).
  now rewrite IH.
Qed.

Lemma length_zero_padded (width : nat) (n : N) :
  String.length (zero_padded width n) = width.
Proof.
  revert n. induction width as [|k IH]; intros n; [reflexivity|].
  cbn [zero_padded]. rewrite length_append, IH. cbn. lia.
Qed.

(** The timestamp has a fixed width: date, time and six digits of
    microseconds. *)
Lemma length_strftime (dt : datetime) : String.length (strftime dt) = 22%nat.
Proof.
  unfold strftime. rewrite !length_append, !length_zero_padded. reflexivity.
Qed.

(** [run_nix_command] in closed form. *)
Lemma run_nix_command_eq (args : list string) (log_prefix : string) (w : world) :
  run_nix_command args log_prefix w =
  (Return (succeeded (next_process w args), captured (next_process w args),
           next_log w log_prefix),
   after_run args log_prefix w).
Proof.
  unfold run_nix_command, after_run, next_log, log_path, transcript, bind, now,
    subprocess_run, open_w, f_write, update_fs, ret;
    cbn [w_clock w_ticks w_spawn w_argv w_fs].
  fold (next_process w args).
  destruct (next_process w args) as [rc out err| |e];
    cbn [succeeded captured transcript_tail w_clock w_ticks w_spawn w_argv w_fs];
    rewrite !alter_insert_eq, !append_nil_l, ?append_assoc; reflexivity.
Qed.

(** ** The dispatcher *)

Ltac run_tool :=
  unfold call_tool, bind, subscript, ret, raise, reply;
  repeat (case_decide; try done);
  repeat match goal with
         | H : _ = Some _ |- _ => rewrite H
         | H : _ = None |- _ => rewrite H
         end;
  rewrite ?run_nix_command_eq.

Ltac shape_reply :=
  intros out [= <-]; eexists; split; [reflexivity|]; split;
  [ try discriminate; reflexivity
  | intros key v Hin; unfold tool_specific_fields; cbn in Hin |- *;
    intuition congruence ].

Lemma tool_names_eq :
  tool_names = ["nix_build"; "nix_eval"; "nix_flake_show"; "nix_flake_check"; "nix_search"].
Proof. reflexivity. Qed.

Lemma in_tool_names (name : string) :
  In name tool_names ->
  name = "nix_build" \/ name = "nix_eval" \/ name = "nix_flake_show" \/
  name = "nix_flake_check" \/ name = "nix_search".
Proof. rewrite tool_names_eq. cbn. intuition congruence. Qed.

Section DispatcherFacts.

Variable json_loads : string -> option value.

(** A [KeyError] names a required key that the call does not supply. *)
Lemma key_error_origin (name : string) (a : tool_arguments) (w : world) (key : string) :
  fst (call_tool json_loads name a w) = Raise (KeyError key) ->
  In key (required_keys name) /\ present key a = false.
Proof.
  unfold call_tool, bind, subscript, raise, ret.
  repeat case_decide; subst.
  all: try (destruct (flake_ref a) as [f|] eqn:Hf);
    try (destruct (query a) as [q|] eqn:Hq);
    rewrite ?run_nix_command_eq; cbn [fst]; try discriminate.
  all: try (intros [= <-]; split;
            [vm_compute; auto | unfold present; cbn; now rewrite ?Hf, ?Hq]).
  all: destruct (succeeded _); cbn [fst]; try discriminate.
  all: destruct (json_loads _) as [v|]; cbn [fst]; try discriminate.
  all: destruct (py_len v); cbn [fst]; discriminate.
Qed.

(** Without a required key the call raises at once. *)
Lemma missing_required_raises (name : string) (a : tool_arguments) (w : world) :
  In name tool_names -> supplies_required name a = false ->
  exists key, call_tool json_loads name a w = (Raise (KeyError key), w).
Proof.
  intros Hname Hreq. apply in_tool_names in Hname.
  destruct Hname as [->|[->|[->|[->| ->]]]]; cbv -[flake_ref query] in Hreq;
    try discriminate.
  - destruct (flake_ref a) eqn:Hf; [discriminate|].
    exists "flake_ref". now run_tool.
  - destruct (flake_ref a) eqn:Hf; [discriminate|].
    exists "flake_ref". now run_tool.
  - destruct (query a) eqn:Hq; [discriminate|].
    exists "query". now run_tool.
Qed.

(** A call of a catalog tool that supplies the required keys runs the
    command once, and any reply it gives is the two base fields followed by
    fields of its own, none of them after a failure. *)
Lemma call_tool_runs_once (name : string) (a : tool_arguments) (w : world) :
  In name tool_names -> supplies_required name a = true ->
  exists (args : list string) (log_prefix : string),
    snd (call_tool json_loads name a w) = after_run args log_prefix w /\
    forall out, fst (call_tool json_loads name a w) = Return out ->
      exists extra : dict,
        out = reply (base_fields (succeeded (next_process w args))
                                 (next_log w log_prefix) ++ extra) /\
        (succeeded (next_process w args) = false -> extra = []) /\
        (forall key v, In (key, v) extra -> In key tool_specific_fields).
Proof.
  intros Hname Hreq. apply in_tool_names in Hname.
  destruct Hname as [->|[->|[->|[->| ->]]]]; cbv -[flake_ref query] in Hreq.
  - destruct (flake_ref a) as [f|] eqn:Hf; [ | discriminate ]. run_tool.
    eexists _, "build". split; [reflexivity|]. cbn [fst].
    destruct (succeeded _); cbn [andb]; [ | shape_reply ].
    destruct (PyStr.truthy _); [ | shape_reply ].
    destruct (PyStr.startswith _ _); shape_reply.
  - destruct (flake_ref a) as [f|] eqn:Hf; [ | discriminate ]. run_tool.
    eexists _, "eval". split; [reflexivity|]. cbn [fst].
    destruct (succeeded _); shape_reply.
  - run_tool.
    eexists _, "flake-show". split; [reflexivity|]. cbn [fst].
    destruct (succeeded _); [ | shape_reply ].
    destruct (json_loads _) as [parsed|]; shape_reply.
  - run_tool.
    eexists _, "flake-check". split; [reflexivity|]. cbn [fst].
    intros out [= <-]. exists []. split; [reflexivity|]. split; [reflexivity|].
    intros key v [].
  - destruct (query a) as [q|] eqn:Hq; [ | discriminate ]. run_tool.
    eexists _, "search". split.
    { destruct (succeeded _); [ | reflexivity ].
      destruct (json_loads _) as [parsed|]; [ | reflexivity ].
      destruct (py_len parsed); reflexivity. }
    destruct (succeeded _); [ | shape_reply ].
    destruct (json_loads _) as [parsed|]; [ | shape_reply ].
    destruct (py_len parsed); [shape_reply | discriminate].
Qed.




(** C4. Every reply of a catalog tool is a JSON object that starts with
    [success] and [log_file]; what follows are fields of the tool's own, and
    nothing follows when [success] is false. *)
Theorem reply_base_fields (name : string) (a : tool_arguments) (w : world) :
  In name tool_names ->
  forall out, fst (call_tool json_loads name a w) = Return out ->
  exists (success : bool) (log_file : string) (extra : dict),
    out = reply (base_fields success log_file ++ extra) /\
    (success = false -> extra = []) /\
    (forall key v, In (key, v) extra -> In key tool_specific_fields).
Proof.
  intros Hname out Hout.
  destruct (supplies_required name a) eqn:Hreq.
  - destruct (call_tool_runs_once name a w Hname Hreq)
      as (args & log_prefix & _ & Hshape).
    destruct (Hshape out Hout) as (extra & ? & ? & ?). eauto 7.
  - destruct (missing_required_raises name a w Hname Hreq) as [key Hkey].
    rewrite Hkey in Hout. discriminate Hout.
Qed.



(** C8. A name outside the catalog gets the one plain text
    [Unknown tool: <name>] as a normal reply; the world is left as it was:
    no subprocess is run and no file is written. *)
Theorem unknown_tool (name : string) (a : tool_arguments) (w : world) :
  ~ In name tool_names ->
  call_tool json_loads name a w =
  (Return [{| type := "text"; text := Plain ("Unknown tool: " +:+ name) |}], w).
Proof.
  rewrite tool_names_eq. cbn [In]. intros Hname.
  unfold call_tool. repeat (case_decide; [exfalso; apply Hname; subst; tauto|]).
  reflexivity.
Qed.

(** C9. A missing required key ([flake_ref] of [nix_build] and [nix_eval],
    [query] of [nix_search]) leaves [call_tool] as a [KeyError] before
    anything is run; an omitted optional key behaves as its declared
    default; and no other key can raise a [KeyError]. *)
Theorem missing_and_default_arguments :
  (forall a w, flake_ref a = None ->
     call_tool json_loads "nix_build" a w = (Raise (KeyError "flake_ref"), w)) /\
  (forall a w, flake_ref a = None ->
     call_tool json_loads "nix_eval" a w = (Raise (KeyError "flake_ref"), w)) /\
  (forall a w, query a = None ->
     call_tool json_loads "nix_search" a w = (Raise (KeyError "query"), w)) /\
  (forall a w, extra_args a = None ->
     call_tool json_loads "nix_build" a w =
     call_tool json_loads "nix_build" (with_extra_args [] a) w) /\
  (forall a w, raw a = None ->
     call_tool json_loads "nix_eval" a w =
     call_tool json_loads "nix_eval" (with_raw false a) w) /\
  (forall a w, json a = None ->
     call_tool json_loads "nix_eval" a w =
     call_tool json_loads "nix_eval" (with_json false a) w) /\
  (forall a w, flake_ref a = None ->
     call_tool json_loads "nix_flake_show" a w =
     call_tool json_loads "nix_flake_show" (with_flake_ref "." a) w) /\
  (forall a w, flake_ref a = None ->
     call_tool json_loads "nix_flake_check" a w =
     call_tool json_loads "nix_flake_check" (with_flake_ref "." a) w) /\
  (forall a w, flake_ref a = None ->
     call_tool json_loads "nix_search" a w =
     call_tool json_loads "nix_search" (with_flake_ref "nixpkgs" a) w) /\
  (declared_default "nix_build" "extra_args" = Some (VList []) /\
   declared_default "nix_eval" "raw" = Some (VBool false) /\
   declared_default "nix_eval" "json" = Some (VBool false) /\
   declared_default "nix_flake_show" "flake_ref" = Some (VStr ".") /\
   declared_default "nix_flake_check" "flake_ref" = Some (VStr ".") /\
   declared_default "nix_search" "flake_ref" = Some (VStr "nixpkgs")) /\
  (forall name a w key,
     fst (call_tool json_loads name a w) = Raise (KeyError key) ->
     In key (required_keys name) /\ present key a = false).
Proof.
  repeat split; try reflexivity.
  1-3: intros a w H; unfold call_tool, bind, subscript, raise;
       repeat (case_decide; try done); now rewrite H.
  1-6: intros a w H; unfold call_tool, with_extra_args, with_raw, with_json,
         with_flake_ref; cbn [flake_ref extra_args raw json query]; now rewrite H.
  all: eapply key_error_origin; eassumption.
Qed.


End DispatcherFacts.

(** ** The scenarios of the specification *)

(** A build that prints its store path. *)
Example nix_build_scenario :
  fst (call_tool sample_loads "nix_build" build_default
         (sample_world (Completed 0 "/nix/store/abc123-pkg
" ""))) =
  Return (reply [("success", VBool true);
                 ("log_file", VStr "/tmp/nix-mcp-build-20240307-090501-000042.log");
                 ("store_path", VStr "/nix/store/abc123-pkg")]).
Proof. vm_compute. reflexivity. Qed.

(** An evaluation with [raw]: [--raw] is passed, [--json] is not. *)
Example nix_eval_scenario :
  let run := call_tool sample_loads "nix_eval" eval_version
               (sample_world (Completed 0 "2.12
" "")) in
  fst run =
  Return (reply [("success", VBool true);
                 ("log_file", VStr "/tmp/nix-mcp-eval-20240307-090501-000042.log");
                 ("result", VStr "2.12")]) /\
  w_argv (snd run) = [["nix"; "eval"; "nixpkgs#hello.version"; "--show-trace"; "--raw"]].
Proof. vm_compute. split; reflexivity. Qed.

(** An unknown name: a plain text and no log. *)
Example unknown_tool_scenario :
  call_tool sample_loads "nix_frobnicate" no_arguments (sample_world TimedOut) =
  (Return [{| type := "text"; text := Plain "Unknown tool: nix_frobnicate" |}],
   sample_world TimedOut).
Proof. reflexivity. Qed.

(** A timeout: the two base fields, and the notice in the log. *)
Example timeout_scenario :
  let run := call_tool sample_loads "nix_build" build_default (sample_world TimedOut) in
  fst run =
  Return (reply [("success", VBool false);
                 ("log_file", VStr "/tmp/nix-mcp-build-20240307-090501-000042.log")]) /\
  w_fs (snd run) !! "/tmp/nix-mcp-build-20240307-090501-000042.log" =
  Some "Command: nix build .#default --show-trace --print-out-paths
Error: Command timed out after 300 seconds
".
Proof. vm_compute. split; reflexivity. Qed.

(** ** Closed instances *)





(** C4 on a call that times out. *)
Lemma reply_base_fields_witness :
  In "nix_eval" tool_names /\
  exists (success : bool) (log_file : string) (extra : dict),
    fst (call_tool sample_loads "nix_eval" eval_version (sample_world TimedOut)) =
    Return (reply (base_fields success log_file ++ extra)) /\
    (success = false -> extra = []).
Proof.
  assert (Hname : In "nix_eval" tool_names) by (vm_compute; tauto).
  split; [exact Hname|].
  destruct (reply_base_fields sample_loads "nix_eval" eval_version
              (sample_world TimedOut) Hname
              (reply [("success", VBool false);
                      ("log_file", VStr "/tmp/nix-mcp-eval-20240307-090501-000042.log")]))
    as (success & log_file & extra & Hout & Hfail & _).
  - vm_compute. reflexivity.
  - exists success, log_file, extra. split; [|exact Hfail].
    rewrite <- Hout. vm_compute. reflexivity.
Defined.



(** C8 on the unknown name of the specification. *)
Lemma unknown_tool_witness :
  ~ In "nix_frobnicate" tool_names /\
  call_tool sample_loads "nix_frobnicate" no_arguments (sample_world TimedOut) =
  (Return [{| type := "text"; text := Plain "Unknown tool: nix_frobnicate" |}],
   sample_world TimedOut).
Proof.
  assert (Hname : ~ In "nix_frobnicate" tool_names).
  { vm_compute. intros H. repeat destruct H as [H|H]; discriminate || exact H. }
  split; [exact Hname|].
  exact (unknown_tool sample_loads "nix_frobnicate" no_arguments (sample_world TimedOut) Hname).
Defined.

(** C9 on a build without [flake_ref]. *)
Lemma missing_and_default_arguments_witness :
  flake_ref no_arguments = None /\
  call_tool sample_loads "nix_build" no_arguments (sample_world TimedOut) =
  (Raise (KeyError "flake_ref"), sample_world TimedOut).
Proof.
  split; [reflexivity|].
  exact (proj1 (missing_and_default_arguments sample_loads) no_arguments
           (sample_world TimedOut) eq_refl).
Defined.


(** C10 on a search that prints an array. *)
Example nix_search_array :
  fst (call_tool sample_loads "nix_search" search_hello
         (sample_world (Completed 0 "[1, 2, 3]" ""))) =
  Return (reply [("success", VBool true);
                 ("log_file", VStr "/tmp/nix-mcp-search-20240307-090501-000042.log");
                 ("results", VList [VInt 1; VInt 2; VInt 3]);
                 ("count", VInt 3)]).
Proof. vm_compute. reflexivity. Qed.

(** * Further properties of the runner and the dispatcher *)

(** ** Shapes of stripped texts *)

Module PyStrShape.
Import PyStr PyStrFacts.

Lemma lstrip_head (l : list ascii) :
  match lstrip_chars l with
  | [] => True
  | c :: _ => isspace c = false
  end.
Proof.
  induction l as [|a l IH]; [exact I|].
  cbn [lstrip_chars]. destruct (isspace a) eqn:Ha; [exact IH | exact Ha].
Qed.

(** What [strip] returns has no white space at either end. *)
Lemma strip_trimmed (s : string) : trimmed (strip s) = true.
Proof.
  unfold trimmed, strip. rewrite chars_str.
  destruct (last_nonspace (chars s)) as [Hb|(u & c & post & -> & Hc & Hp)].
  - now rewrite strip_blank.
  - rewrite strip_keep by assumption.
    pose proof (lstrip_head u) as Hu.
    destruct (lstrip_chars u) as [|x r]; cbn [app].
    + cbn. now rewrite Hc.
    + rewrite last_last, Hu, Hc. reflexivity.
Qed.

Lemma forallb_lstrip (P : ascii -> bool) (l : list ascii) :
  forallb P l = true -> forallb P (lstrip_chars l) = true.
Proof.
  induction l as [|a l IH]; [reflexivity|].
  intros H. cbn [lstrip_chars]. destruct (isspace a); [|exact H].
  cbn [forallb] in H. apply andb_true_iff in H as [_ H]. auto.
Qed.

Lemma forallb_strip (P : ascii -> bool) (l : list ascii) :
  forallb P l = true -> forallb P (strip_chars l) = true.
Proof.
  intros H. unfold strip_chars, rstrip_chars.
  rewrite forallb_rev. apply forallb_lstrip. rewrite forallb_rev.
  now apply forallb_lstrip.
Qed.

Lemma split_no_separator (sep : ascii) (l : list ascii) :
  forallb (forallb (fun c => negb (Ascii.eqb c sep))) (split_chars sep l) = true.
Proof.
  induction l as [|a l IH]; [reflexivity|].
  cbn [split_chars]. destruct (Ascii.eqb a sep) eqn:Ha; [exact IH|].
  destruct (split_chars sep l) as [|h t]; cbn [forallb] in *; now rewrite Ha.
Qed.

Lemma forallb_last {A} (P : A -> bool) (l : list A) (d : A) :
  forallb P l = true -> P d = true -> P (List.last l d) = true.
Proof.
  intros Hl Hd. induction l as [|a [|b l] IH]; [exact Hd|..].
  - cbn in *. now apply andb_true_iff in Hl as [Ha _].
  - cbn [forallb] in Hl. apply andb_true_iff in Hl as [_ Hl]. exact (IH Hl).
Qed.

(** The stripped last piece of any text is a single line. *)
Lemma stripped_last_piece_single_line (s : string) :
  single_line (strip (last_item (split newline s))) = true.
Proof.
  unfold single_line, strip, split. rewrite last_item_map, !chars_str.
  apply forallb_strip.
  apply (forallb_last (forallb (fun c => negb (Ascii.eqb c newline))));
    [apply split_no_separator | reflexivity].
Qed.

End PyStrShape.

(** ** Log paths *)

Lemma append_inj_suffix (a b s t : string) :
  String.length s = String.length t -> a +:+ s = b +:+ t -> a = b /\ s = t.
Proof.
  intros Hlen. revert b. induction a as [|x a IH]; intros [|y b] H.
  - now split.
  - exfalso. apply (f_equal String.length) in H.
    change ("" +:+ s) with s in H.
    change (String y b +:+ t) with (String y (b +:+ t)) in H.
    cbn [String.length] in H. rewrite length_append in H. lia.
  - exfalso. apply (f_equal String.length) in H.
    change ("" +:+ t) with t in H.
    change (String x a +:+ s) with (String x (a +:+ s)) in H.
    cbn [String.length] in H. rewrite length_append in H. lia.
  - change (String x (a +:+ s) = String y (b +:+ t)) in H.
    injection H as -> H. destruct (IH b H) as [-> ->]. now split.
Qed.

Lemma append_inj_prefix (a b s t : string) :
  String.length a = String.length b -> a +:+ s = b +:+ t -> a = b /\ s = t.
Proof.
  revert b. induction a as [|x a IH]; intros [|y b] Hlen H; try discriminate Hlen.
  - now split.
  - change (String x (a +:+ s) = String y (b +:+ t)) in H.
    injection H as -> H. injection Hlen as Hlen.
    destruct (IH b Hlen H) as [-> ->]. now split.
Qed.

Lemma digit_inj (n m : N) : digit n = digit m -> (n mod 10 = m mod 10)%N.
Proof.
  unfold digit. intros H. apply (f_equal N_of_ascii) in H.
  assert (Hn : (n mod 10 < 10)%N) by (apply N.mod_lt; discriminate).
  assert (Hm : (m mod 10 < 10)%N) by (apply N.mod_lt; discriminate).
  rewrite !N_ascii_embedding in H by lia. lia.
Qed.

(** Zero padding loses nothing of a number that fits the width. *)
Lemma zero_padded_inj (width : nat) (n m : N) :
  (n < 10 ^ N.of_nat width)%N -> (m < 10 ^ N.of_nat width)%N ->
  zero_padded width n = zero_padded width m -> n = m.
Proof.
  revert n m. induction width as [|k IH]; intros n m Hn Hm H.
  - cbn in Hn, Hm. lia.
  - rewrite Nat2N.inj_succ, N.pow_succ_r' in Hn, Hm.
    cbn [zero_padded] in H.
    apply append_inj_suffix in H as [Hhigh Hlow]; [|reflexivity].
    injection Hlow as Hlow. apply digit_inj in Hlow.
    assert (Hdiv : (n / 10 = m / 10)%N).
    { apply IH; [ | | exact Hhigh]; apply N.Div0.div_lt_upper_bound; lia. }
    rewrite (N.div_mod' n 10), (N.div_mod' m 10). lia.
Qed.

(** The timestamp determines the instant. *)
Lemma strftime_inj (dt dt' : datetime) :
  valid_datetime dt -> valid_datetime dt' -> strftime dt = strftime dt' -> dt = dt'.
Proof.
  intros (Hy & Hm & Hd & HH & HM & HS & Hf) (Hy' & Hm' & Hd' & HH' & HM' & HS' & Hf').
  unfold strftime. intros H.
  repeat match type of H with
         | _ +:+ _ = _ +:+ _ =>
             apply append_inj_prefix in H as [? H];
             [ | rewrite ?length_zero_padded; reflexivity ]
         end.
  destruct dt, dt'; cbn [year month day hour minute second microsecond] in *.
  f_equal; eapply zero_padded_inj; try eassumption; cbn; lia.
Qed.

(** The path of a log determines its prefix and its instant. *)
Lemma log_path_determines (log_prefix log_prefix' : string) (dt dt' : datetime) :
  valid_datetime dt -> valid_datetime dt' ->
  log_path log_prefix dt = log_path log_prefix' dt' ->
  log_prefix = log_prefix' /\ dt = dt'.
Proof.
  intros Hdt Hdt' H. unfold log_path in H.
  apply append_inj_prefix in H as [_ H]; [|reflexivity].
  apply append_inj_suffix in H as [Hprefix H];
    [|now rewrite !length_append, !length_strftime].
  split; [exact Hprefix|].
  apply append_inj_prefix in H as [_ H]; [|reflexivity].
  apply append_inj_suffix in H as [H _]; [|reflexivity].
  now apply strftime_inj.
Qed.




(** ** The dispatcher, tool by tool *)


Section DispatcherMore.

Variable json_loads : string -> option value.

(** X5. The command line of each tool: [nix build] with the two fixed flags
    and then the extra arguments in their order, [nix flake show --json],
    [nix flake check --show-trace] and [nix search --json], the flake
    reference always one argument of its own. *)
Theorem tool_command_lines :
  (forall a w f, flake_ref a = Some f ->
     w_argv (snd (call_tool json_loads "nix_build" a w)) =
     w_argv w ++ [["nix"; "build"; f; "--show-trace"; "--print-out-paths"]
                  ++ match extra_args a with Some extra => extra | None => [] end]) /\
  (forall a w,
     w_argv (snd (call_tool json_loads "nix_flake_show" a w)) =
     w_argv w ++ [["nix"; "flake"; "show";
                   match flake_ref a with Some f => f | None => "." end; "--json"]]) /\
  (forall a w,
     w_argv (snd (call_tool json_loads "nix_flake_check" a w)) =
     w_argv w ++ [["nix"; "flake"; "check";
                   match flake_ref a with Some f => f | None => "." end;
                   "--show-trace"]]) /\
  (forall a w q, query a = Some q ->
     w_argv (snd (call_tool json_loads "nix_search" a w)) =
     w_argv w ++ [["nix"; "search";
                   match flake_ref a with Some f => f | None => "nixpkgs" end;
                   q; "--json"]]).
Proof.
  split; [|split; [|split]].
  - intros a w f Hf. run_tool. reflexivity.
  - intros a w. run_tool. reflexivity.
  - intros a w. run_tool. reflexivity.
  - intros a w q Hq. run_tool.
    destruct (succeeded _); [ | reflexivity ].
    destruct (json_loads _) as [parsed|]; [ | reflexivity ].
    destruct (py_len parsed); reflexivity.
Qed.

(** X6. Whatever the name and the arguments, a call starts at most one
    process, and that process is [nix]. *)
Theorem only_nix_is_run (name : string) (a : tool_arguments) (w : world) :
  exists started : list (list string),
    w_argv (snd (call_tool json_loads name a w)) = w_argv w ++ started /\
    (length started <= 1)%nat /\
    Forall (fun argv => hd_error argv = Some "nix") started.
Proof.
  destruct (decide (In name tool_names)) as [Hname|Hname].
  - destruct (supplies_required name a) eqn:Hreq.
    + destruct (call_tool_runs_once json_loads name a w Hname Hreq)
        as (args & log_prefix & Hw & _).
      exists [args]. rewrite Hw. split; [reflexivity|]. split; [reflexivity|].
      constructor; [|constructor].
      revert Hw. apply in_tool_names in Hname.
      destruct Hname as [->|[->|[->|[->| ->]]]]; cbv -[flake_ref query] in Hreq;
        [destruct (flake_ref a) eqn:Hf; [ | discriminate ]
        |destruct (flake_ref a) eqn:Hf; [ | discriminate ]
        | | |destruct (query a) eqn:Hq; [ | discriminate ]];
        run_tool.
      5: destruct (succeeded _);
           [destruct (json_loads _) as [parsed|]; [destruct (py_len parsed)|]|].
      all: cbn [snd]; unfold after_run; intros [= Hargv _];
        apply app_inv_head in Hargv; injection Hargv as <-;
        try reflexivity.
      destruct (get (raw a) false), (get (json a) false); reflexivity.
    + destruct (missing_required_raises json_loads name a w Hname Hreq) as [key ->].
      exists []. rewrite app_nil_r. repeat split; [cbn; lia | constructor].
  - exists []. rewrite app_nil_r.
    assert (Hw : snd (call_tool json_loads name a w) = w).
    { revert Hname. rewrite tool_names_eq. cbn [In]. intros Hname.
      unfold call_tool. repeat (case_decide; [exfalso; apply Hname; subst; tauto|]).
      reflexivity. }
    rewrite Hw. repeat split; [cbn; lia | constructor].
Qed.




(** X10. The dispatcher answers [Unknown tool: <name>] exactly for the
    names that are not in the catalog of [list_tools]. *)
Theorem unknown_exactly_outside_catalog (name : string) (a : tool_arguments) (w : world) :
  fst (call_tool json_loads name a w) =
    Return [{| type := "text"; text := Plain ("Unknown tool: " +:+ name) |}]
  <-> ~ In name tool_names.
Proof.
  split.
  - intros Hout Hname. destruct (supplies_required name a) eqn:Hreq.
    + destruct (call_tool_runs_once json_loads name a w Hname Hreq)
        as (args & log_prefix & _ & Hshape).
      destruct (Hshape _ Hout) as (extra & Heq & _). discriminate Heq.
    + destruct (missing_required_raises json_loads name a w Hname Hreq) as [key Hkey].
      rewrite Hkey in Hout. discriminate Hout.
  - rewrite tool_names_eq. cbn [In]. intros Hname.
    unfold call_tool. repeat (case_decide; [exfalso; apply Hname; subst; tauto|]).
    reflexivity.
Qed.

(** X11. The dispatcher demands exactly the keys the catalog declares
    required: a call of a catalog tool raises [KeyError] if and only if some
    key of the tool's [required] list is absent. *)
Theorem key_error_iff_required_missing (name : string) (a : tool_arguments) (w : world) :
  In name tool_names ->
  ((exists key, fst (call_tool json_loads name a w) = Raise (KeyError key)) <->
   exists key, In key (required_keys name) /\ present key a = false).
Proof.
  intros Hname. split.
  - intros [key Hkey]. exists key. now apply (key_error_origin json_loads name a w).
  - intros (key & Hin & Habsent).
    assert (Hreq : supplies_required name a = false).
    { unfold supplies_required. destruct (forallb _ _) eqn:Hall; [|reflexivity].
      rewrite forallb_forall in Hall. specialize (Hall key Hin). congruence. }
    destruct (missing_required_raises json_loads name a w Hname Hreq) as [key' ->].
    now exists key'.
Qed.

(** X12. A [store_path] in a reply is one line, starts with [/nix/store/]
    and has no white space at either end. *)
Theorem store_path_shape (a : tool_arguments) (w : world) (result : dict) (v : value) :
  fst (call_tool json_loads "nix_build" a w) = Return (reply result) ->
  dict_get "store_path" result = Some v ->
  exists s, v = VStr s /\
            PyStr.startswith s "/nix/store/" = true /\
            single_line s = true /\ trimmed s = true.
Proof.
  unfold call_tool, bind, subscript, ret, raise, reply.
  repeat (case_decide; try done).
  destruct (flake_ref a) as [f|]; [ | discriminate ].
  rewrite run_nix_command_eq. cbn [fst].
  destruct (succeeded _); cbn [andb]; [ | intros [= <-]; discriminate ].
  destruct (PyStr.truthy _); [ | intros [= <-]; discriminate ].
  destruct (PyStr.startswith _ _) eqn:Hprefix; [ | intros [= <-]; discriminate ].
  intros [= <-] [= <-]. eexists. split; [reflexivity|]. split; [exact Hprefix|].
  split; [apply PyStrShape.stripped_last_piece_single_line
         | apply PyStrShape.strip_trimmed].
Qed.



End DispatcherMore.

(** ** Closed instances of the further properties *)




(** X5 on a build with extra arguments. *)
Lemma tool_command_lines_witness :
  flake_ref build_with_extra = Some ".#default" /\
  w_argv (snd (call_tool sample_loads "nix_build" build_with_extra
                 (sample_world TimedOut))) =
  [["nix"; "build"; ".#default"; "--show-trace"; "--print-out-paths"; "--impure"; "-L"]].
Proof.
  split; [reflexivity|].
  exact (proj1 (tool_command_lines sample_loads) build_with_extra
           (sample_world TimedOut) ".#default" eq_refl).
Defined.



(** X11 on a search without [query]. *)
Lemma key_error_iff_required_missing_witness :
  In "nix_search" tool_names /\
  exists key,
    fst (call_tool sample_loads "nix_search" no_arguments (sample_world TimedOut)) =
    Raise (KeyError key).
Proof.
  assert (Hname : In "nix_search" tool_names) by (vm_compute; tauto).
  split; [exact Hname|].
  apply (key_error_iff_required_missing sample_loads "nix_search" no_arguments
           (sample_world TimedOut) Hname).
  exists "query". split; [vm_compute; tauto | reflexivity].
Defined.

(** X12 on the build of the specification. *)
Lemma store_path_shape_witness :
  exists s, VStr "/nix/store/abc123-pkg" = VStr s /\
            PyStr.startswith s "/nix/store/" = true /\
            single_line s = true /\ trimmed s = true.
Proof.
  apply (store_path_shape sample_loads build_default
           (sample_world (Completed 0 "/nix/store/abc123-pkg
" ""))
           [("success", VBool true);
            ("log_file", VStr "/tmp/nix-mcp-build-20240307-090501-000042.log");
            ("store_path", VStr "/nix/store/abc123-pkg")]).
  - vm_compute. reflexivity.
  - reflexivity.
Defined.


(** * The system that can refuse the log *)

(** ** Paths *)

Lemma chars_append (a b : string) :
  PyStr.chars (a +:+ b) = PyStr.chars a ++ PyStr.chars b.
Proof.
  induction a as [|x a IH]; [reflexivity|].
  change (x :: PyStr.chars (a +:+ b) = x :: (PyStr.chars a ++ PyStr.chars b)).
  now rewrite IH.
Qed.

Lemma no_slash_append (a b : string) :
  no_slash (a +:+ b) = no_slash a && no_slash b.
Proof. unfold no_slash. now rewrite chars_append, forallb_app. Qed.

Lemma digit_not_slash (n : N) : Ascii.eqb (digit n) Posix.slash = false.
Proof.
  destruct (Ascii.eqb_spec (digit n) Posix.slash) as [H|]; [|reflexivity].
  exfalso. unfold digit in H. apply (f_equal N_of_ascii) in H.
  assert (Hn : (n mod 10 < 10)%N) by (apply N.mod_lt; discriminate).
  rewrite N_ascii_embedding in H by lia.
  change (N_of_ascii Posix.slash) with 47%N in H.
  revert H. generalize (n mod 10)%N. intros r Hr. lia.
Qed.

Lemma no_slash_zero_padded (width : nat) (n : N) : no_slash (zero_padded width n) = true.
Proof.
  revert n. induction width as [|k IH]; intros n; [reflexivity|].
  cbn [zero_padded]. rewrite no_slash_append, IH.
  unfold no_slash. cbn. now rewrite digit_not_slash.
Qed.

Lemma no_slash_strftime (dt : datetime) : no_slash (strftime dt) = true.
Proof.
  unfold strftime. now rewrite !no_slash_append, !no_slash_zero_padded.
Qed.

Lemma split_whole (sep : ascii) (l : list ascii) :
  forallb (fun c => negb (Ascii.eqb c sep)) l = true ->
  PyStr.split_chars sep l = [l].
Proof.
  induction l as [|c l IH]; [reflexivity|].
  cbn [forallb PyStr.split_chars]. intros [Hc Hl]%andb_true_iff.
  apply negb_true_iff in Hc. rewrite Hc, (IH Hl). reflexivity.
Qed.

Lemma split_tmp_file (rest : list ascii) :
  forallb (fun c => negb (Ascii.eqb c Posix.slash)) rest = true ->
  PyStr.split_chars Posix.slash
    (PyStr.chars "tmp" ++ Posix.slash :: (PyStr.chars "nix-mcp-" ++ rest)) =
  [PyStr.chars "tmp"; PyStr.chars "nix-mcp-" ++ rest].
Proof.
  intros Hrest. rewrite PyStrFacts.split_app. cbn [PyStr.split_chars].
  change (Ascii.eqb Posix.slash Posix.slash) with true.
  rewrite (split_whole Posix.slash (PyStr.chars "nix-mcp-" ++ rest))
    by (rewrite forallb_app; apply andb_true_iff; split; [reflexivity | exact Hrest]).
  reflexivity.
Qed.

(** [Path] leaves the path of a file directly in [/tmp] as it is. *)
Lemma path_of_tmp_file (rest : string) :
  no_slash rest = true ->
  Posix.Path ("/tmp/nix-mcp-" +:+ rest) = "/tmp/nix-mcp-" +:+ rest.
Proof.
  intros Hrest.
  assert (Hchars : PyStr.chars ("/tmp/nix-mcp-" +:+ rest) =
                   Posix.slash :: (PyStr.chars "tmp" ++ Posix.slash
                                   :: (PyStr.chars "nix-mcp-" ++ PyStr.chars rest)))
    by (rewrite chars_append; reflexivity).
  unfold Posix.Path. rewrite Hchars.
  assert (Hlead : Posix.leading_slashes
                    (Posix.slash :: (PyStr.chars "tmp" ++ Posix.slash
                                     :: (PyStr.chars "nix-mcp-" ++ PyStr.chars rest))) = 1%nat)
    by reflexivity.
  rewrite Hlead. cbn [skipn]. rewrite drop_0. unfold PyStr.split.
  rewrite PyStrFacts.chars_str, (split_tmp_file _ Hrest).
  cbn. now rewrite PyStrFacts.str_chars.
Qed.

(** For a prefix without [/], the path returned is the text it is built from. *)
Lemma log_file_path_plain (log_prefix : string) (dt : datetime) :
  no_slash log_prefix = true -> log_file_path log_prefix dt = log_path log_prefix dt.
Proof.
  intros Hprefix. unfold log_file_path, log_path. apply path_of_tmp_file.
  now rewrite !no_slash_append, Hprefix, no_slash_strftime.
Qed.

Lemma tool_log_prefix_plain (name : string) : no_slash (tool_log_prefix name) = true.
Proof. unfold tool_log_prefix. repeat case_decide; reflexivity. Qed.

(** ** The runner *)

(** The world after a run that logged at [path]. *)
Lemma posix_run_writable (args : list string) (log_prefix : string) (h : Posix.host) :
  let w := Posix.h_world h in
  let path := log_file_path log_prefix (w_clock w (w_ticks w)) in
  log_writable h path ->
  exists ops : nat,
    Posix.run_nix_command args log_prefix h =
    (Posix.Return (succeeded (next_process w args), captured (next_process w args), path),
     {| Posix.h_world :=
          {| w_clock := w_clock w; w_ticks := S (w_ticks w); w_spawn := w_spawn w;
             w_argv := w_argv w ++ [args];
             w_fs := <[path := transcript args (next_process w args)]> (w_fs w) |};
        Posix.h_io := Posix.h_io h;
        Posix.h_ops := ops |}).
Proof.
  intros w path Hio. subst w.
  unfold Posix.run_nix_command, Posix.bind, Posix.try_except, Posix.now,
    Posix.subprocess_run, Posix.on_world, clock_read, process_started, now,
    subprocess_run.
  cbn [snd Posix.h_world Posix.h_io Posix.h_ops w_clock w_ticks w_spawn w_argv w_fs].
  fold (log_path log_prefix (w_clock (Posix.h_world h) (w_ticks (Posix.h_world h)))).
  fold (log_file_path log_prefix (w_clock (Posix.h_world h) (w_ticks (Posix.h_world h)))).
  fold path. fold (next_process (Posix.h_world h) args).
  destruct (next_process (Posix.h_world h) args) as [rc out err| |msg];
    cbn [Posix.caught_as_exception Posix.returncode Posix.stdout Posix.stderr
         succeeded captured];
    unfold Posix.with_open, Posix.bind, Posix.open_w, Posix.f_write, Posix.f_close,
      Posix.file_op, Posix.ret, files_changed, update_fs;
    cbn [snd Posix.h_world Posix.h_io Posix.h_ops w_clock w_ticks w_spawn w_argv w_fs];
    repeat (rewrite Hio by reflexivity;
            cbn [snd Posix.h_world Posix.h_io Posix.h_ops w_clock w_ticks w_spawn
                 w_argv w_fs]);
    rewrite !alter_insert_eq, !append_nil_l, ?append_assoc;
    eexists; reflexivity.
Qed.

(** When the log cannot even be opened, the exception of the second
    [open], the one in the handler, leaves [run_nix_command]. *)
Lemma posix_run_refused (args : list string) (log_prefix : string) (h : Posix.host) :
  let w := Posix.h_world h in
  let path := log_file_path log_prefix (w_clock w (w_ticks w)) in
  (forall n, is_Some (Posix.h_io h n (Posix.Open path))) ->
  exists (message : string) (h' : Posix.host),
    Posix.run_nix_command args log_prefix h = (Posix.Raise (Posix.OSError message), h') /\
    w_fs (Posix.h_world h') = w_fs w.
Proof.
  intros w path Hio. subst w.
  unfold Posix.run_nix_command, Posix.bind, Posix.try_except, Posix.now,
    Posix.subprocess_run, Posix.on_world, clock_read, process_started, now,
    subprocess_run.
  cbn [snd Posix.h_world Posix.h_io Posix.h_ops w_clock w_ticks w_spawn w_argv w_fs].
  fold (log_path log_prefix (w_clock (Posix.h_world h) (w_ticks (Posix.h_world h)))).
  fold (log_file_path log_prefix (w_clock (Posix.h_world h) (w_ticks (Posix.h_world h)))).
  fold path.
  destruct (w_spawn _ _ _) as [rc out err| |msg];
    unfold Posix.with_open, Posix.bind, Posix.open_w, Posix.file_op;
    cbn [snd Posix.h_world Posix.h_io Posix.h_ops Posix.caught_as_exception].
  - destruct (Hio (Posix.h_ops h)) as [m1 ->].
    cbn [Posix.caught_as_exception Posix.h_world Posix.h_io Posix.h_ops].
    destruct (Hio (S (Posix.h_ops h))) as [m2 ->]. now eexists _, _.
  - destruct (Hio (Posix.h_ops h)) as [m1 ->]. now eexists _, _.
  - destruct (Hio (Posix.h_ops h)) as [m1 ->]. now eexists _, _.
Qed.

(** ** The dispatcher *)

Section PosixDispatcher.

Variable json_loads : string -> option value.

(** In the first layer, the run of a catalog tool uses the tool's prefix and
    the reply carries the path of that run. *)
Lemma call_tool_log (name : string) (a : tool_arguments) (w : world) :
  In name tool_names -> supplies_required name a = true ->
  exists args : list string,
    snd (call_tool json_loads name a w) = after_run args (tool_log_prefix name) w /\
    forall result,
      fst (call_tool json_loads name a w) = Return (reply result) ->
      dict_get "log_file" result = Some (VStr (next_log w (tool_log_prefix name))).
Proof.
  intros Hname Hreq. apply in_tool_names in Hname.
  destruct Hname as [->|[->|[->|[->| ->]]]]; cbv -[flake_ref query] in Hreq;
    [ destruct (flake_ref a) eqn:?; [ | discriminate ]
    | destruct (flake_ref a) eqn:?; [ | discriminate ]
    | | | destruct (query a) eqn:?; [ | discriminate ] ];
    run_tool; eexists; (split; [ try reflexivity | intros result; cbn [fst] ]).
  - destruct (succeeded _); cbn [andb]; [ | now intros [= <-] ].
    destruct (PyStr.truthy _); [ | now intros [= <-] ].
    destruct (PyStr.startswith _ _); now intros [= <-].
  - destruct (succeeded _); now intros [= <-].
  - destruct (succeeded _); [ | now intros [= <-] ].
    destruct (json_loads _); now intros [= <-].
  - now intros [= <-].
  - destruct (succeeded _); [ | reflexivity ].
    destruct (json_loads _) as [parsed|]; [ | reflexivity ].
    destruct (py_len parsed); reflexivity.
  - destruct (succeeded _); [ | now intros [= <-] ].
    destruct (json_loads _) as [parsed|]; [ | now intros [= <-] ].
    destruct (py_len parsed); [now intros [= <-] | discriminate].
Qed.

(** On a system that does not refuse the log of the call, the dispatcher of
    this layer does what the dispatcher of the first layer does. *)
Lemma posix_call_tool_agrees (name : string) (a : tool_arguments) (h : Posix.host) :
  let w := Posix.h_world h in
  log_writable h (log_path (tool_log_prefix name) (w_clock w (w_ticks w))) ->
  fst (Posix.call_tool json_loads name a h) =
    lift_outcome (fst (call_tool json_loads name a w)) /\
  Posix.h_world (snd (Posix.call_tool json_loads name a h)) =
    snd (call_tool json_loads name a w).
Proof.
  intros w Hio. subst w.
  rewrite <- (log_file_path_plain _ _ (tool_log_prefix_plain name)) in Hio.
  revert Hio.
  unfold Posix.call_tool, call_tool, tool_log_prefix, Posix.bind, bind,
    Posix.subscript, subscript, Posix.ret, ret, Posix.raise, raise.
  repeat case_decide; intros Hio.
  all: try (destruct (flake_ref a) as [f|]; [ | now split ]).
  all: try (destruct (query a) as [q|]; [ | now split ]).
  all: try (now split).
  all: rewrite run_nix_command_eq;
    match goal with
    | |- context [Posix.run_nix_command ?args ?prefix ?host] =>
        destruct (posix_run_writable args prefix host Hio) as [ops ->];
        rewrite (log_file_path_plain prefix) by reflexivity
    end;
    unfold after_run, next_log; cbn [fst snd Posix.h_world].
  all: destruct (succeeded _); cbn [andb fst snd Posix.h_world]; try (now split).
  all: try (destruct (PyStr.truthy _); [ | now split ];
            destruct (PyStr.startswith _ _); now split).
  all: destruct (json_loads _) as [parsed|]; try (now split).
  destruct (py_len parsed); now split.
Qed.

End PosixDispatcher.

(** ** What holds of the runner and of its log *)

(** C2, amended. A call of [run_nix_command] whose log file can be opened
    and written returns its triple and does not raise: when the subprocess
    completes, the flag is true exactly for exit code 0 and the second
    component is the captured stdout; on a timeout or any other exception
    of the subprocess the flag is false and the second component is the
    empty string; the third component is the path of the log file, which
    exists afterwards. When the log file cannot be opened, the [OSError]
    of the [open] in the handler leaves the function. *)
Theorem run_nix_command_returns (args : list string) (log_prefix : string)
    (h : Posix.host) :
  let w := Posix.h_world h in
  let log_file := log_file_path log_prefix (w_clock w (w_ticks w)) in
  (log_writable h log_file ->
   exists (success : bool) (stdout : string) (h' : Posix.host),
     Posix.run_nix_command args log_prefix h =
       (Posix.Return (success, stdout, log_file), h') /\
     is_Some (w_fs (Posix.h_world h') !! log_file) /\
     match w_spawn w (length (w_argv w)) args with
     | Completed returncode out _ =>
         (success = true <-> returncode = 0) /\ stdout = out
     | TimedOut | Failed _ => success = false /\ stdout = ""
     end) /\
  ((forall n, is_Some (Posix.h_io h n (Posix.Open log_file))) ->
   exists (message : string) (h' : Posix.host),
     Posix.run_nix_command args log_prefix h =
       (Posix.Raise (Posix.OSError message), h')).
Proof.
  intros w log_file. split.
  - intros Hio. destruct (posix_run_writable args log_prefix h Hio) as [ops Hrun].
    eexists _, _, _. split; [exact Hrun|]. cbn [Posix.h_world w_fs]. split.
    + fold w. fold log_file. rewrite lookup_insert_eq. eauto.
    + fold w. unfold next_process.
      destruct (w_spawn w (length (w_argv w)) args) as [rc out err| |e]; cbn.
      * split; [apply Z.eqb_eq | reflexivity].
      * split; reflexivity.
      * split; reflexivity.
  - intros Hio. destruct (posix_run_refused args log_prefix h Hio)
      as (message & h' & Hrun & _).
    now exists message, h'.
Qed.

(** X1. For log prefixes without [/], as those of the five tools, two runs
    get the same log path exactly when they have the same prefix and read
    the same instant off the clock, to the microsecond. *)
Theorem log_file_path_inj (log_prefix log_prefix' : string) (dt dt' : datetime) :
  no_slash log_prefix = true -> no_slash log_prefix' = true ->
  valid_datetime dt -> valid_datetime dt' ->
  (log_file_path log_prefix dt = log_file_path log_prefix' dt' <->
   log_prefix = log_prefix' /\ dt = dt').
Proof.
  intros Hp Hp' Hdt Hdt'.
  rewrite (log_file_path_plain _ _ Hp), (log_file_path_plain _ _ Hp'). split.
  - now apply log_path_determines.
  - now intros [-> ->].
Qed.

Section PosixLog.

Variable json_loads : string -> option value.

(** C6, amended. A call of [run_nix_command] whose log file can be opened and
    written writes exactly one file, the log, which it creates unless a file
    of that path exists already; its path is
    [str(Path("/tmp/nix-mcp-<log_prefix>-<timestamp>.log"))], that very text
    for a prefix without [/], and it is the third component returned; the
    process started is the argument vector given, and the log begins with
    the line that records that vector, joined by spaces. A catalog tool
    called with the arguments its schema requires makes one such run, under
    its own prefix, and any reply it gives carries the path as [log_file].
    A call whose log file cannot be opened raises and writes no file. *)
Theorem one_log_per_writable_run :
  (forall args log_prefix h,
     let w := Posix.h_world h in
     let log_file := log_file_path log_prefix (w_clock w (w_ticks w)) in
     let run := Posix.run_nix_command args log_prefix h in
     log_writable h log_file ->
     exists (success : bool) (stdout rest : string),
       fst run = Posix.Return (success, stdout, log_file) /\
       w_fs (Posix.h_world (snd run)) =
         <[log_file := "Command: " +:+ PyStr.join " " args +:+ "
" +:+ rest]> (w_fs w) /\
       w_argv (Posix.h_world (snd run)) = w_argv w ++ [args] /\
       (w_fs w !! log_file = None -> creates_one_file w (Posix.h_world (snd run))) /\
       (no_slash log_prefix = true ->
        log_file = "/tmp/nix-mcp-" +:+ log_prefix +:+ "-"
                   +:+ strftime (w_clock w (w_ticks w)) +:+ ".log")) /\
  (forall name a h,
     let w := Posix.h_world h in
     let log_file := log_file_path (tool_log_prefix name) (w_clock w (w_ticks w)) in
     In name tool_names -> supplies_required name a = true ->
     log_writable h log_file ->
     exists args,
       Posix.h_world (snd (Posix.call_tool json_loads name a h)) =
       Posix.h_world (snd (Posix.run_nix_command args (tool_log_prefix name) h)) /\
       forall result,
         fst (Posix.call_tool json_loads name a h) = Posix.Return (reply result) ->
         dict_get "log_file" result = Some (VStr log_file)) /\
  (forall args log_prefix h,
     let w := Posix.h_world h in
     let log_file := log_file_path log_prefix (w_clock w (w_ticks w)) in
     let run := Posix.run_nix_command args log_prefix h in
     (forall n, is_Some (Posix.h_io h n (Posix.Open log_file))) ->
     (exists message, fst run = Posix.Raise (Posix.OSError message)) /\
     w_fs (Posix.h_world (snd run)) = w_fs w).
Proof.
  split; [ | split].
  - intros args log_prefix h w log_file run Hio. subst run.
    destruct (posix_run_writable args log_prefix h Hio) as [ops ->].
    exists (succeeded (next_process w args)), (captured (next_process w args)),
      (transcript_tail (next_process w args)).
    cbn [fst snd Posix.h_world w_fs w_argv].
    split; [reflexivity|]. split; [reflexivity|]. split; [reflexivity|]. split.
    + intros Hnew. now exists log_file, (transcript args (next_process w args)).
    + intros Hplain. subst log_file. now rewrite log_file_path_plain.
  - intros name a h w log_file Hname Hreq Hio. subst log_file.
    pose proof Hio as Hio'.
    rewrite (log_file_path_plain _ _ (tool_log_prefix_plain name)) in Hio'.
    destruct (posix_call_tool_agrees json_loads name a h Hio') as [Hfst Hsnd].
    destruct (call_tool_log json_loads name a w Hname Hreq) as (args & Hw & Hlog).
    exists args. destruct (posix_run_writable args _ h Hio) as [ops ->].
    cbn [snd Posix.h_world]. split.
    + fold w in Hsnd. rewrite Hsnd, Hw. unfold after_run, next_log.
      now rewrite log_file_path_plain by apply tool_log_prefix_plain.
    + intros result Hout. fold w in Hfst. rewrite Hfst in Hout.
      rewrite log_file_path_plain by apply tool_log_prefix_plain.
      apply Hlog. destruct (fst (call_tool json_loads name a w)) as [out|[key|message]];
        cbn in Hout; congruence.
  - intros args log_prefix h w log_file run Hio. subst run.
    destruct (posix_run_refused args log_prefix h Hio) as (message & h' & -> & Hfs).
    split; [now exists message | exact Hfs].
Qed.

End PosixLog.

(** ** Closed instances on that system *)

(** C2 as stated fails: with a log prefix that names a directory which does
    not exist, and for the prefix of a build when [/tmp] is read-only, the
    [open] in the handler raises and the call returns no triple. *)
Lemma run_nix_command_raises :
  let h := sample_host io_flat_tmp (Completed 0 "out" "") in
  fst (Posix.run_nix_command ["nix"; "build"] "a/b" h) =
    Posix.Raise (Posix.OSError
      "[Errno 2] No such file or directory: '/tmp/nix-mcp-a/b-20240307-090501-000042.log'") /\
  ~ (exists r h', Posix.run_nix_command ["nix"; "build"] "a/b" h = (Posix.Return r, h')) /\
  fst (Posix.run_nix_command ["nix"; "build"; ".#default"] "build"
         (sample_host io_read_only TimedOut)) =
    Posix.Raise (Posix.OSError
      "[Errno 30] Read-only file system: '/tmp/nix-mcp-build-20240307-090501-000042.log'").
Proof.
  intros h. split; [vm_compute; reflexivity|]. split.
  - intros (r & h' & Hrun). apply (f_equal fst) in Hrun.
    vm_compute in Hrun. discriminate Hrun.
  - vm_compute. reflexivity.
Qed.

(** C2, amended, on a build that succeeds. *)
Lemma run_nix_command_returns_witness :
  let h := sample_host io_ok (Completed 0 "/nix/store/abc-hello" "") in
  log_writable h "/tmp/nix-mcp-build-20240307-090501-000042.log" /\
  exists success stdout h',
    Posix.run_nix_command ["nix"; "build"; ".#default"] "build" h =
      (Posix.Return (success, stdout, "/tmp/nix-mcp-build-20240307-090501-000042.log"), h') /\
    success = true /\ stdout = "/nix/store/abc-hello".
Proof.
  intros h.
  assert (Hw : log_writable h "/tmp/nix-mcp-build-20240307-090501-000042.log")
    by (intros n op _; reflexivity).
  split; [exact Hw|].
  destruct (proj1 (run_nix_command_returns ["nix"; "build"; ".#default"] "build" h) Hw)
    as (success & stdout & h' & Hrun & _ & Hout).
  cbv in Hout. destruct Hout as [Hs Ho].
  exists success, stdout, h'. split; [exact Hrun|]. split; [apply Hs; reflexivity | exact Ho].
Defined.

(** C6 as stated fails: with the log prefix [a/b] and no directory
    [/tmp/nix-mcp-a] the command is executed and no file is written; with
    the prefix [a//b] the log is not at [/tmp/nix-mcp-a//b-<timestamp>.log],
    the path the claim gives; and a second run that reads the same instant
    off the clock creates no file, it replaces the log of the first. *)
Lemma no_log_in_missing_directory :
  let h := sample_host io_flat_tmp (Completed 0 "out" "") in
  let run := Posix.run_nix_command ["nix"; "build"] "a/b" h in
  (exists message, fst run = Posix.Raise (Posix.OSError message)) /\
  w_argv (Posix.h_world (snd run)) = [["nix"; "build"]] /\
  ~ creates_one_file (Posix.h_world h) (Posix.h_world (snd run)) /\
  let run' := Posix.run_nix_command ["nix"; "build"] "a//b"
                (sample_host io_ok (Completed 0 "out" "")) in
  fst run' = Posix.Return (true, "out", "/tmp/nix-mcp-a/b-20240307-090501-000042.log") /\
  log_path "a//b" sample_instant = "/tmp/nix-mcp-a//b-20240307-090501-000042.log" /\
  w_fs (Posix.h_world (snd run')) !! log_path "a//b" sample_instant = None /\
  let first := snd (Posix.run_nix_command ["nix"; "build"] "build"
                      (sample_host io_ok (Completed 0 "out" ""))) in
  let second := snd (Posix.run_nix_command ["nix"; "build"] "build" first) in
  ~ creates_one_file (Posix.h_world first) (Posix.h_world second).
Proof.
  intros h run. split; [eexists; vm_compute; reflexivity|].
  split; [vm_compute; reflexivity|]. split.
  - intros (path & content & _ & Hfs).
    apply (f_equal (fun fs => fs !! path)) in Hfs.
    rewrite lookup_insert_eq in Hfs.
    assert (Hrun : w_fs (Posix.h_world (snd run)) = ∅) by (vm_compute; reflexivity).
    rewrite Hrun in Hfs. discriminate Hfs.
  - intros run'. split; [vm_compute; reflexivity|]. split; [vm_compute; reflexivity|].
    split; [vm_compute; reflexivity|].
    intros first second (path & content & Hnew & Hfs).
    assert (Hsame : w_fs (Posix.h_world second) = w_fs (Posix.h_world first))
      by (vm_compute; reflexivity).
    rewrite Hsame in Hfs. apply (f_equal (fun fs => fs !! path)) in Hfs.
    rewrite lookup_insert_eq, Hnew in Hfs. discriminate Hfs.
Qed.

(** C6, amended, on a build. *)
Lemma one_log_per_writable_run_witness :
  let h := sample_host io_ok (Completed 0 "/nix/store/abc-hello" "") in
  let log_file := "/tmp/nix-mcp-build-20240307-090501-000042.log" in
  In "nix_build" tool_names /\ supplies_required "nix_build" build_default = true /\
  log_writable h log_file /\
  (exists success stdout rest,
     fst (Posix.run_nix_command ["nix"; "build"; ".#default"] "build" h) =
       Posix.Return (success, stdout, log_file) /\
     w_fs (Posix.h_world (snd (Posix.run_nix_command ["nix"; "build"; ".#default"]
                                 "build" h))) =
       <[log_file := "Command: nix build .#default
" +:+ rest]> ∅) /\
  exists args,
    Posix.h_world (snd (Posix.call_tool sample_loads "nix_build" build_default h)) =
    Posix.h_world (snd (Posix.run_nix_command args "build" h)) /\
    forall result,
      fst (Posix.call_tool sample_loads "nix_build" build_default h) =
        Posix.Return (reply result) ->
      dict_get "log_file" result = Some (VStr log_file).
Proof.
  intros h log_file.
  assert (Hin : In "nix_build" tool_names) by (vm_compute; tauto).
  assert (Hw : log_writable h log_file) by (intros n op _; reflexivity).
  split; [exact Hin|]. split; [reflexivity|]. split; [exact Hw|]. split.
  - destruct (proj1 (one_log_per_writable_run sample_loads)
                ["nix"; "build"; ".#default"] "build" h Hw)
      as (success & stdout & rest & Hfst & Hfs & _).
    exists success, stdout, rest. split; [exact Hfst | exact Hfs].
  - exact (proj1 (proj2 (one_log_per_writable_run sample_loads))
             "nix_build" build_default h Hin eq_refl Hw).
Defined.

(** X1 on a build and an evaluation in the same microsecond. *)
Lemma log_file_path_inj_witness :
  no_slash "build" = true /\ no_slash "eval" = true /\ valid_datetime sample_instant /\
  log_file_path "build" sample_instant <> log_file_path "eval" sample_instant.
Proof.
  assert (Hvalid : valid_datetime sample_instant)
    by (unfold valid_datetime; cbn; repeat split; lia).
  split; [reflexivity|]. split; [reflexivity|]. split; [exact Hvalid|].
  intros H.
  apply (log_file_path_inj "build" "eval" sample_instant sample_instant
           eq_refl eq_refl Hvalid Hvalid) in H.
  destruct H as [H _]. discriminate H.
Defined.

(** Without the hypothesis on [/], two prefixes share one log path. *)
Example slashes_collapse :
  log_file_path "a//b" sample_instant = log_file_path "a/b" sample_instant /\
  log_file_path "a/./b" sample_instant = log_file_path "a/b" sample_instant.
Proof. split; vm_compute; reflexivity. Qed.
